(** * TripoSR notebook: the timing utility and the image-to-mesh pipeline

    A shallow embedding of the code cells of [TripoSR_3dify.ipynb]:
    the [Timer] class, the upload cell, the variables of the
    configuration cell, the preprocessing cell and the inference /
    render / export loop.

    Python floats are IEEE binary64 and numpy's [float32] is IEEE
    binary32; both are taken from the Standard Library's [SpecFloat]
    (round to nearest, ties to even), so every definition below runs.
    The libraries the notebook calls (torch, rembg, PIL's resampling,
    tsr) are an interface: their calls are recorded in a trace and
    their results come from a record of functions.  The loaded model is
    part of that record, so the cell that loads it is not a statement
    here; a library call is taken to return, and the exceptions that
    remain are the notebook's own ([l[0]] on an empty list, a
    broadcast that does not fit, an array PIL has no mode for). *)

From Stdlib Require Import ZArith String Ascii List.
From Stdlib Require Import Floats.SpecFloat.
From Stdlib Require Import Decimal DecimalString DecimalNat.
From stdpp Require Import gmap strings list.

Local Open Scope string_scope.
Local Open Scope list_scope.
Local Open Scope Z_scope.

(** ** Floating point *)

(** Python's [float]: binary64. *)
Module F64.
Definition prec : Z := 53.
Definition emax : Z := 1024.
Definition of_Z (z : Z) : spec_float := binary_normalize prec emax z 0 false.
Definition sub : spec_float -> spec_float -> spec_float := SFsub prec emax.
Definition mul : spec_float -> spec_float -> spec_float := SFmul prec emax.
Definition div : spec_float -> spec_float -> spec_float := SFdiv prec emax.
End F64.

(** numpy's [float32]: binary32. *)
Module F32.
Definition prec : Z := 24.
Definition emax : Z := 128.
Definition of_Z (z : Z) : spec_float := binary_normalize prec emax z 0 false.
Definition add : spec_float -> spec_float -> spec_float := SFadd prec emax.
Definition sub : spec_float -> spec_float -> spec_float := SFsub prec emax.
Definition mul : spec_float -> spec_float -> spec_float := SFmul prec emax.
Definition div : spec_float -> spec_float -> spec_float := SFdiv prec emax.

(** [0.5], exactly representable. *)
Definition half : spec_float := div (of_Z 1) (of_Z 2).

(** The integer part of a float, toward zero. *)
Definition trunc (f : spec_float) : Z :=
  match f with
  | S754_finite s m e =>
      let mag := if 0 <=? e then Zpos m * 2 ^ e else Zpos m / 2 ^ (- e) in
      if s then - mag else mag
  | _ => 0
  end.

(** [astype(np.uint8)] on a float: the fraction is dropped.  The
    notebook converts blends of bytes with gray, scaled back by 255;
    outside [0, 256) C leaves the conversion open, and the integer is
    reduced modulo 256 here. *)
Definition to_uint8 (f : spec_float) : Z := trunc f mod 256.
End F32.

(** ** Python strings *)

Module PyStr.
(** [str(n)] for a non-negative integer. *)
Definition str_nat (n : nat) : string := NilZero.string_of_uint (Nat.to_uint n).
Definition str_Z (z : Z) : string := NilZero.string_of_uint (N.to_uint (Z.to_N z)).

Fixpoint zeros (k : nat) : string :=
  match k with
  | O => ""
  | S k' => "0" +:+ zeros k'
  end.

(** [f"{n:03d}"] for a non-negative integer: at least three digits,
    zeros on the left. *)
Definition format_03d (n : nat) : string :=
  let s := str_nat n in
  zeros (3 - String.length s) +:+ s.

(** Nearest integer to [num / den], ties to the even one
    ([0 <= num], [0 < den]). *)
Definition round_half_even (num den : Z) : Z :=
  let q := num / den in
  let r := num mod den in
  match (2 * r ?= den) with
  | Lt => q
  | Gt => q + 1
  | Eq => if Z.even q then q else q + 1
  end.

(** [|m * 2^e|] in hundredths, correctly rounded. *)
Definition hundredths (m : positive) (e : Z) : Z :=
  if 0 <=? e then Zpos m * 2 ^ e * 100
  else round_half_even (Zpos m * 100) (2 ^ (- e)).

Definition fixed2 (h : Z) : string :=
  let frac := h mod 100 in
  str_Z (h / 100) +:+ "." +:+ (if frac <? 10 then "0" else "") +:+ str_Z frac.

(** [f"{t:.2f}"] for a float. *)
Definition format_2f (t : spec_float) : string :=
  match t with
  | S754_zero s => (if s then "-" else "") +:+ "0.00"
  | S754_infinity s => (if s then "-" else "") +:+ "inf"
  | S754_nan => "nan"
  | S754_finite s m e => (if s then "-" else "") +:+ fixed2 (hundredths m e)
  end.

Definition startswith_sep (b : string) : bool :=
  match b with
  | String c _ => Ascii.eqb c "/"
  | EmptyString => false
  end.

Fixpoint endswith_sep (p : string) : bool :=
  match p with
  | EmptyString => false
  | String c EmptyString => Ascii.eqb c "/"
  | String _ rest => endswith_sep rest
  end.

(** One step of [posixpath.join]'s loop. *)
Definition join2 (path b : string) : string :=
  if startswith_sep b then b
  else if (String.eqb path "" || endswith_sep path)%bool then path +:+ b
  else path +:+ "/" +:+ b.

(** [os.path.join(a, *p)]. *)
Definition os_path_join (a : string) (p : list string) : string :=
  fold_left join2 p a.
End PyStr.

(** ** The world outside the notebook *)

(** What the timer can observe and change: whether CUDA is there, how
    many device barriers have run, the wall clock ([time.time()]
    returns the next reading), and the lines printed so far. *)
Record World := mkWorld {
  cuda_available : bool;
  cuda_syncs : nat;
  clock : nat -> spec_float;
  ticks : nat;
  stdout : list string
}.

(** [torch.cuda.synchronize()]: the call. *)
Definition cuda_synchronize (w : World) : World :=
  mkWorld (cuda_available w) (S (cuda_syncs w)) (clock w) (ticks w) (stdout w).

(** [torch.cuda.synchronize]: the bare name, as an expression
    statement.  Looking the function up runs nothing. *)
Definition cuda_synchronize_name (w : World) : World := w.

(** [time.time()] *)
Definition time_time (w : World) : spec_float * World :=
  (clock w (ticks w),
   mkWorld (cuda_available w) (cuda_syncs w) (clock w) (S (ticks w)) (stdout w)).

(** [print(line)] *)
Definition print (line : string) (w : World) : World :=
  mkWorld (cuda_available w) (cuda_syncs w) (clock w) (ticks w) (stdout w ++ [line]).

(** ** class Timer *)

Module Timer.
Record t := mk {
  items : gmap string spec_float;
  time_scale : spec_float;
  time_unit : string
}.

(** [__init__] *)
Definition init : t := mk ∅ (F64.of_Z 1000) "ms".

(** [start(self, name)] *)
Definition start (name : string) (self : t) (w : World) : t * World :=
  let w := if cuda_available w then cuda_synchronize w else w in
  let '(now, w) := time_time w in
  (mk (<[name := now]> (items self)) (time_scale self) (time_unit self), w).

(** [end(self, name)]: the value handed back to the caller is
    [None] for Python's [None] and [Some d] for a float [d]. *)
Definition end_ (name : string) (self : t) (w : World)
  : option spec_float * t * World :=
  match items self !! name with
  | None => (None, self, w)
  | Some start_time =>
      let w := if cuda_available w then cuda_synchronize_name w else w in
      let self := mk (delete name (items self)) (time_scale self) (time_unit self) in
      let '(now, w) := time_time w in
      let delta := F64.sub now start_time in
      let t := F64.mul delta (time_scale self) in
      let w := print (name +:+ " finished in " +:+ PyStr.format_2f t
                        +:+ time_unit self +:+ ".") w in
      (None, self, w)
  end.

(** A call on the timer object. *)
Inductive call := Start (name : string) | End (name : string).

Definition run (c : call) (self : t) (w : World) : t * World :=
  match c with
  | Start name => start name self w
  | End name => let '(_, self, w) := end_ name self w in (self, w)
  end.

(** The states the process-wide [timer = Timer()] can be in. *)
Inductive reachable : t -> Prop :=
| reach_init : reachable init
| reach_step c self w : reachable self -> reachable (run c self w).1.
End Timer.

(** ** Images and arrays *)

(** A PIL image: its mode, its size [(width, height)] and what
    [np.array(image)] gives, rows of pixels of bands. *)
Record Image := mkImage {
  mode : string;
  size : nat * nat;
  pixels : list (list (list Z))
}.

(** What a statement leaves behind: a value, or an exception. *)
Inductive outcome (A : Type) : Type :=
| Return (a : A)
| Raised (exn : string).
Arguments Return {A} a.
Arguments Raised {A} exn.

Module Np.
(** Broadcasting a binary operation along the last axis: the lengths
    agree, or one of them is 1. *)
Definition broadcast {A : Type} (op : A -> A -> A) (xs ys : list A) : option (list A) :=
  match xs, ys with
  | _, [y] => Some (map (fun x => op x y) xs)
  | [x], _ => Some (map (op x) ys)
  | _, _ => if (length xs =? length ys)%nat then Some (zip_with op xs ys) else None
  end.

(** [np.array(image).astype(np.float32) / 255.0] *)
Definition normalized (image : Image) : list (list (list spec_float)) :=
  map (map (map (fun v => F32.div (F32.of_Z v) (F32.of_Z 255)))) (pixels image).

(** One pixel of
    [image[:, :, :3] * image[:, :, 3:4] + (1 - image[:, :, 3:4]) * 0.5]. *)
Definition blend_pixel (px : list spec_float) : option (list spec_float) :=
  let rgb := take 3 px in
  let alpha := take 1 (drop 3 px) in
  lhs ← broadcast F32.mul rgb alpha;
  let rhs := map (fun a => F32.mul (F32.sub (F32.of_Z 1) a) F32.half) alpha in
  broadcast F32.add lhs rhs.

(** [(image * 255.0).astype(np.uint8)] *)
Definition to_bytes (arr : list (list (list spec_float))) : list (list (list Z)) :=
  map (map (map (fun v => F32.to_uint8 (F32.mul v (F32.of_Z 255))))) arr.

Definition shape (arr : list (list (list Z))) : nat * nat * nat :=
  (length arr, length (hd [] arr), length (hd [] (hd [] arr))).
End Np.

(** [Image.fromarray(arr)] for a [uint8] array of three axes: the
    number of bands fixes the mode, and PIL knows two, three and four.
    The nested lists carry the band count in their first pixel, so an
    array without pixels is read here as one without bands. *)
Definition Image_fromarray (arr : list (list (list Z))) : outcome Image :=
  let '(h, w, bands) := Np.shape arr in
  match bands with
  | 2%nat => Return (mkImage "LA" (w, h) arr)
  | 3%nat => Return (mkImage "RGB" (w, h) arr)
  | 4%nat => Return (mkImage "RGBA" (w, h) arr)
  | _ => Raised "TypeError"
  end.

(** The body of [if image.mode == "RGBA":] in the preprocessing cell,
    with its guard. *)
Definition composite (image : Image) : outcome Image :=
  if String.eqb (mode image) "RGBA" then
    match mapM (mapM Np.blend_pixel) (Np.normalized image) with
    | Some arr => Image_fromarray (Np.to_bytes arr)
    | None => Raised "ValueError"
    end
  else Return image.

(** An array of [k]-band pixels with at least one row and one
    column. *)
Definition has_bands (k : nat) (arr : list (list (list Z))) : Prop :=
  arr <> [] /\ Forall (fun row => row <> [] /\ Forall (fun px => length px = k) row) arr.

(** [c / 255] in [float32]. *)
Definition unit_scale (c : Z) : spec_float := F32.div (F32.of_Z c) (F32.of_Z 255).

(** One band of [out = rgb*alpha + gray*(1-alpha)] with gray 0.5, on
    bytes: both inputs scaled to the unit interval, the result scaled
    back and cut to a byte. *)
Definition blend_float (c a : Z) : spec_float :=
  F32.mul
    (F32.add (F32.mul (unit_scale c) (unit_scale a))
       (F32.mul F32.half (F32.sub (F32.of_Z 1) (unit_scale a))))
    (F32.of_Z 255).

Definition blend_channel (c a : Z) : Z := F32.to_uint8 (blend_float c a).

(** The blend of an RGBA pixel: three bands, the alpha band gone. *)
Definition blend_rgba (px : list Z) : list Z :=
  match px with
  | [r; g; b; a] => [blend_channel r a; blend_channel g a; blend_channel b a]
  | _ => []
  end.

(** ** The libraries *)

(** The calls the notebook makes into PIL, rembg and tsr that return a
    value.  [Scene] is what the model returns for an image, [Mesh] what
    it extracts. *)
Record Libs (Scene Mesh : Type) := mkLibs {
  pil_resample : Image -> nat * nat -> list (list (list Z));
  remove_background : Image -> Image;
  resize_foreground : Image -> spec_float -> Image;
  model_call : list Image -> string -> list Scene;
  model_render : list Scene -> nat -> string -> list (list Image);
  model_extract_mesh : list Scene -> bool -> list Mesh
}.
Arguments pil_resample {Scene Mesh} _ _ _.
Arguments remove_background {Scene Mesh} _ _.
Arguments resize_foreground {Scene Mesh} _ _ _.
Arguments model_call {Scene Mesh} _ _ _.
Arguments model_render {Scene Mesh} _ _ _ _.
Arguments model_extract_mesh {Scene Mesh} _ _ _.

(** [image.resize(size)]: a new image; [image] itself is left as it is. *)
Definition Image_resize {Scene Mesh : Type} (libs : Libs Scene Mesh)
    (image : Image) (sz : nat * nat) : Image :=
  mkImage (mode image) sz (pil_resample libs image sz).

(** The calls that reach outside the interpreter, in the order made. *)
Inductive Event (Scene Mesh : Type) : Type :=
| NewSession
| RemoveBackground (image : Image)
| ResizeForeground (image : Image) (ratio : spec_float)
| Makedirs (path : string)
| ImageSave (image : Image) (path : string)
| ModelCall (images : list Image) (device : string)
| ModelRender (scene_codes : list Scene) (n_views : nat) (return_type : string)
| SaveVideo (frames : list Image) (path : string) (fps : nat)
| ExtractMesh (scene_codes : list Scene) (has_vertex_color : bool)
| MeshExport (mesh : Mesh) (path : string).
Arguments NewSession {Scene Mesh}.
Arguments RemoveBackground {Scene Mesh} image.
Arguments ResizeForeground {Scene Mesh} image ratio.
Arguments Makedirs {Scene Mesh} path.
Arguments ImageSave {Scene Mesh} image path.
Arguments ModelCall {Scene Mesh} images device.
Arguments ModelRender {Scene Mesh} scene_codes n_views return_type.
Arguments SaveVideo {Scene Mesh} frames path fps.
Arguments ExtractMesh {Scene Mesh} scene_codes has_vertex_color.
Arguments MeshExport {Scene Mesh} mesh path.

(** The path an event writes to, if it writes. *)
Definition written_path {Scene Mesh : Type} (ev : Event Scene Mesh) : option string :=
  match ev with
  | Makedirs path | ImageSave _ path | SaveVideo _ path _ | MeshExport _ path => Some path
  | _ => None
  end.

(** ** Notebook state and statements *)

Record State (Scene Mesh : Type) := mkState {
  world : World;
  timer : Timer.t;
  trace : list (Event Scene Mesh)
}.
Arguments mkState {Scene Mesh} _ _ _.
Arguments world {Scene Mesh} _.
Arguments timer {Scene Mesh} _.
Arguments trace {Scene Mesh} _.

(** The variables of the configuration cell, as that cell leaves them
    ([output_dir] after its [strip()]). *)
Record Config := mkConfig {
  image_paths : string;
  device : string;
  pretrained_model_name_or_path : string;
  chunk_size : Z;
  no_remove_bg : bool;
  foreground_ratio : spec_float;
  output_dir : string;
  model_save_format : string;
  render : bool
}.

Definition with_no_remove_bg (flag : bool) (cfg : Config) : Config :=
  mkConfig (image_paths cfg) (device cfg) (pretrained_model_name_or_path cfg)
    (chunk_size cfg) flag (foreground_ratio cfg) (output_dir cfg)
    (model_save_format cfg) (render cfg).

(** The values written in the notebook. *)
Definition notebook_config : Config :=
  mkConfig "/content/TripoSR/examples/product.png" "cuda:0" "stabilityai/TripoSR"
    8192 true (F64.div (F64.of_Z 85) (F64.of_Z 100)) "output/" "obj" true.

Section Statements.
Context {Scene Mesh : Type}.

(** A statement: it changes the state and returns or raises. *)
Definition M (A : Type) : Type :=
  State Scene Mesh -> State Scene Mesh * outcome A.

Definition ret {A : Type} (a : A) : M A := fun s => (s, Return a).

Definition bind {A B : Type} (m : M A) (k : A -> M B) : M B :=
  fun s =>
    match m s with
    | (s', Return a) => k a s'
    | (s', Raised exn) => (s', Raised exn)
    end.

Definition lift {A : Type} (o : outcome A) : M A := fun s => (s, o).

Definition emit (ev : Event Scene Mesh) : M unit :=
  fun s => (mkState (world s) (timer s) (trace s ++ [ev]), Return tt).

(** [timer.start(name)] on the process-wide timer. *)
Definition timer_start (name : string) : M unit :=
  fun s =>
    let '(t, w) := Timer.start name (timer s) (world s) in
    (mkState w t (trace s), Return tt).

(** [timer.end(name)] on the process-wide timer. *)
Definition timer_end (name : string) : M (option spec_float) :=
  fun s =>
    let '(r, t, w) := Timer.end_ name (timer s) (world s) in
    (mkState w t (trace s), Return r).

Definition py_print (line : string) : M unit :=
  fun s => (mkState (print line (world s)) (timer s) (trace s), Return tt).

(** [l[0]] *)
Definition index0 {A : Type} (l : list A) : M A :=
  match l with
  | x :: _ => ret x
  | [] => lift (Raised "IndexError")
  end.

(** [for i, x in enumerate(l, start): body] *)
Fixpoint for_enumerate {A : Type} (body : nat -> A -> M unit)
    (start : nat) (l : list A) : M unit :=
  match l with
  | [] => ret tt
  | x :: rest => bind (body start x) (fun _ => for_enumerate body (S start) rest)
  end.

(** [m] returns or raises [r] and adds exactly [evs] to the trace,
    whatever the state it starts in. *)
Definition yields {A : Type} (m : M A) (evs : list (Event Scene Mesh))
    (r : outcome A) : Prop :=
  forall s, exists s', m s = (s', r) /\ trace s' = trace s ++ evs.

End Statements.

Notation "x <- m ;; k" := (bind m (fun x => k))
  (at level 100, m at next level, k at level 200, right associativity).
Notation "m ;; k" := (bind m (fun _ => k))
  (at level 100, k at level 200, right associativity).

(** ** Output paths *)

(** [os.path.join(output_dir, str(i), f"render_{ri:03d}.png")] *)
Definition frame_path (cfg : Config) (i ri : nat) : string :=
  PyStr.os_path_join (output_dir cfg)
    [PyStr.str_nat i; "render_" +:+ PyStr.format_03d ri +:+ ".png"].

(** [os.path.join(output_dir, str(i), "render.mp4")] *)
Definition video_path (cfg : Config) (i : nat) : string :=
  PyStr.os_path_join (output_dir cfg) [PyStr.str_nat i; "render.mp4"].

(** [os.path.join(output_dir, str(i), f"mesh.{model_save_format}")] *)
Definition mesh_path (cfg : Config) (i : nat) : string :=
  PyStr.os_path_join (output_dir cfg)
    [PyStr.str_nat i; "mesh." +:+ model_save_format cfg].

(** [enumerate(l, start)] as a list. *)
Definition enumerate {A : Type} (start : nat) (l : list A) : list (nat * A) :=
  zip (seq start (length l)) l.

(** ** The cells *)

Section Cells.
Context {Scene Mesh : Type} (libs : Libs Scene Mesh).

Definition call_remove_background (image : Image) : M (Scene:=Scene) (Mesh:=Mesh) Image :=
  emit (RemoveBackground image) ;;
  ret (remove_background libs image).

Definition call_resize_foreground (image : Image) (ratio : spec_float)
  : M (Scene:=Scene) (Mesh:=Mesh) Image :=
  emit (ResizeForeground image ratio) ;;
  ret (resize_foreground libs image ratio).

Definition call_model (images : list Image) (dev : string)
  : M (Scene:=Scene) (Mesh:=Mesh) (list Scene) :=
  emit (ModelCall images dev) ;;
  ret (model_call libs images dev).

Definition call_render (scene_codes : list Scene) (n_views : nat) (return_type : string)
  : M (Scene:=Scene) (Mesh:=Mesh) (list (list Image)) :=
  emit (ModelRender scene_codes n_views return_type) ;;
  ret (model_render libs scene_codes n_views return_type).

Definition call_extract_mesh (scene_codes : list Scene) (has_vertex_color : bool)
  : M (Scene:=Scene) (Mesh:=Mesh) (list Mesh) :=
  emit (ExtractMesh scene_codes has_vertex_color) ;;
  ret (model_extract_mesh libs scene_codes has_vertex_color).

(** The upload cell.  [uploaded] lists the images of the uploaded
    files in the order of [uploaded.keys()]; the cell leaves
    [original_image]. *)
Definition upload_cell (uploaded : list Image) : M (Scene:=Scene) (Mesh:=Mesh) Image :=
  original_image <- index0 uploaded ;;
  emit (ImageSave (Image_resize libs original_image (512%nat, 512%nat))
          "examples/product.png") ;;
  ret original_image.

(** The preprocessing cell.  It reads [original_image] and leaves
    [images].  [os.makedirs] and [image.save] are recorded as calls
    and taken to return: what the file system and the PNG encoder
    answer is not part of the model. *)
Definition preprocess_cell (cfg : Config) (original_image : Image)
  : M (Scene:=Scene) (Mesh:=Mesh) (list Image) :=
  timer_start "Processing images" ;;
  let images := [] in
  emit NewSession ;;
  image_with_bg_removed <- call_remove_background original_image ;;
  image <- call_resize_foreground image_with_bg_removed (foreground_ratio cfg) ;;
  image <- lift (composite image) ;;
  let image_dir := PyStr.os_path_join (output_dir cfg) [PyStr.str_nat 0] in
  emit (Makedirs image_dir) ;;
  emit (ImageSave image (PyStr.os_path_join image_dir ["input.png"])) ;;
  let images := images ++ [image] in
  timer_end "Processing images" ;;
  ret images.

(** The body of [if render:]. *)
Definition render_branch (cfg : Config) (i : nat) (scene_codes : list Scene)
  : M (Scene:=Scene) (Mesh:=Mesh) unit :=
  timer_start "Rendering" ;;
  render_images <- call_render scene_codes 30 "pil" ;;
  frames <- index0 render_images ;;
  for_enumerate
    (fun ri render_image => emit (ImageSave render_image (frame_path cfg i ri)))
    0 frames ;;
  frames <- index0 render_images ;;
  emit (SaveVideo frames (video_path cfg i) 30) ;;
  timer_end "Rendering" ;;
  ret tt.

(** [if render: ...] *)
Definition render_stage (cfg : Config) (i : nat) (scene_codes : list Scene)
  : M (Scene:=Scene) (Mesh:=Mesh) unit :=
  if render cfg then render_branch cfg i scene_codes else ret tt.

(** The body of [for i, image in enumerate(images):]; [n] is
    [len(images)].  [torch.no_grad()] changes nothing that is traced.
    The writes are recorded as calls and taken to return; the body
    makes no directory, so a write below an index whose directory is
    missing fails in Python where it returns here. *)
Definition loop_body (cfg : Config) (n : nat) (i : nat) (image : Image)
  : M (Scene:=Scene) (Mesh:=Mesh) unit :=
  py_print ("Running image " +:+ PyStr.str_nat (i + 1) +:+ "/"
              +:+ PyStr.str_nat n +:+ " ...") ;;
  timer_start "Running model" ;;
  scene_codes <- call_model [image] (device cfg) ;;
  timer_end "Running model" ;;
  render_stage cfg i scene_codes ;;
  timer_start "Exporting mesh" ;;
  meshes <- call_extract_mesh scene_codes false ;;
  let mesh_file := mesh_path cfg i in
  mesh <- index0 meshes ;;
  emit (MeshExport mesh mesh_file) ;;
  timer_end "Exporting mesh" ;;
  ret tt.

(** The inference, render and export cell. *)
Definition loop_cell (cfg : Config) (images : list Image)
  : M (Scene:=Scene) (Mesh:=Mesh) unit :=
  for_enumerate (loop_body cfg (length images)) 0 images ;;
  py_print "Processing complete.".

(** Preprocessing, then the loop. *)
Definition pipeline (cfg : Config) (original_image : Image)
  : M (Scene:=Scene) (Mesh:=Mesh) unit :=
  images <- preprocess_cell cfg original_image ;;
  loop_cell cfg images.

(** Upload, preprocessing, then the loop. *)
Definition notebook (cfg : Config) (uploaded : list Image)
  : M (Scene:=Scene) (Mesh:=Mesh) unit :=
  original_image <- upload_cell uploaded ;;
  pipeline cfg original_image.

End Cells.

(** ** What the cells are expected to leave in the trace *)

(** [os.path.join(output_dir, str(0))] *)
Definition image_dir (cfg : Config) : string :=
  PyStr.os_path_join (output_dir cfg) [PyStr.str_nat 0].

Section Traces.
Context {Scene Mesh : Type} (libs : Libs Scene Mesh).

(** The image the preprocessing cell composites. *)
Definition resized (cfg : Config) (original_image : Image) : Image :=
  resize_foreground libs (remove_background libs original_image) (foreground_ratio cfg).

(** The library calls that open the preprocessing cell. *)
Definition preprocess_calls (cfg : Config) (original_image : Image)
  : list (Event Scene Mesh) :=
  [NewSession; RemoveBackground original_image;
   ResizeForeground (remove_background libs original_image) (foreground_ratio cfg)].

(** The calls of the render branch when the renderer's first list is
    [frames]. *)
Definition render_trace (cfg : Config) (i : nat) (scene_codes : list Scene)
    (frames : list Image) : list (Event Scene Mesh) :=
  ModelRender scene_codes 30 "pil"
  :: map (fun p => ImageSave p.2 (frame_path cfg i p.1)) (enumerate 0 frames)
  ++ [SaveVideo frames (video_path cfg i) 30].

(** Extraction and export calls. *)
Definition is_export (ev : Event Scene Mesh) : bool :=
  match ev with
  | ExtractMesh _ _ | MeshExport _ _ => true
  | _ => false
  end.

End Traces.

(** [path] is [dir] or lies below it. *)
Definition under (dir path : string) : Prop :=
  path = dir \/ exists name, path = dir +:+ "/" +:+ name.

(** Every path an event of [evs] writes to is [dir] or below it. *)
Definition all_under {Scene Mesh : Type} (dir : string)
    (evs : list (Event Scene Mesh)) : Prop :=
  Forall (fun ev => forall path, written_path ev = Some path -> under dir path) evs.

(** However [m] ends, what it added to the trace writes under [dir]. *)
Definition writes_under {Scene Mesh A : Type} (dir : string)
    (m : M (Scene:=Scene) (Mesh:=Mesh) A) : Prop :=
  forall s s' r, m s = (s', r) ->
    exists evs, trace s' = trace s ++ evs /\ all_under dir evs.

(** ** Sample inputs *)

Module Sample.
(** An idle machine with CUDA whose clock reads 1700000000.0 s plus
    1.2345 s per reading. *)
Definition world0 : World :=
  mkWorld true 0
    (fun n => F64.div (F64.of_Z (17000000000000 + 12345 * Z.of_nat n)) (F64.of_Z 10000))
    0 [].

Definition state0 : State nat nat := mkState world0 Timer.init [].

(** A 3x2 RGB image. *)
Definition rgb_3x2 : Image :=
  mkImage "RGB" (3%nat, 2%nat)
    [[[255; 0; 0]; [0; 255; 0]; [0; 0; 255]];
     [[10; 20; 30]; [40; 50; 60]; [70; 80; 90]]].

(** A 2x1 RGBA image: one opaque pixel, one transparent. *)
Definition rgba_2x1 : Image :=
  mkImage "RGBA" (2%nat, 1%nat) [[[200; 100; 50; 255]; [9; 9; 9; 0]]].

(** Stand-ins for the libraries: background removal leaves an RGBA
    image alone and makes any other image opaque RGBA, foreground
    resizing returns its input, the model numbers its scenes, a render
    gives [n_views] copies of one frame per scene, and a scene is its
    own mesh. *)
Definition libs : Libs nat nat :=
  mkLibs nat nat
    (fun image sz => repeat (repeat [0; 0; 0] (fst sz)) (snd sz))
    (fun image =>
       if String.eqb (mode image) "RGBA" then image
       else mkImage "RGBA" (size image)
              (map (map (fun px => take 3 px ++ [255])) (pixels image)))
    (fun image ratio => image)
    (fun images dev => seq 0 (length images))
    (fun scene_codes n_views return_type =>
       map (fun _ => repeat rgb_3x2 n_views) scene_codes)
    (fun scene_codes has_vertex_color => scene_codes).
End Sample.

(** ** More stand-ins for the libraries *)

Module Stub.
(** As [Sample.libs], with a renderer that returns no frame list. *)
Definition no_render : Libs nat nat :=
  mkLibs nat nat
    (pil_resample Sample.libs) (remove_background Sample.libs)
    (resize_foreground Sample.libs) (model_call Sample.libs)
    (fun scene_codes n_views return_type => [])
    (model_extract_mesh Sample.libs).

(** As [Sample.libs], with a model that extracts no mesh. *)
Definition no_mesh : Libs nat nat :=
  mkLibs nat nat
    (pil_resample Sample.libs) (remove_background Sample.libs)
    (resize_foreground Sample.libs) (model_call Sample.libs)
    (model_render Sample.libs)
    (fun scene_codes has_vertex_color => []).

(** As [Sample.libs], with a background removal that returns its
    input. *)
Definition plain : Libs nat nat :=
  mkLibs nat nat
    (pil_resample Sample.libs) (fun image => image)
    (resize_foreground Sample.libs) (model_call Sample.libs)
    (model_render Sample.libs) (model_extract_mesh Sample.libs).

(** A 1x1 image with a gray band and an alpha band. *)
Definition la_1x1 : Image := mkImage "LA" (1%nat, 1%nat) [[[90; 128]]].

(** Two 2x1 RGBA images, one opaque, one transparent. *)
Definition opaque_2x1 : Image :=
  mkImage "RGBA" (2%nat, 1%nat) [[[200; 100; 50; 255]; [1; 2; 3; 255]]].

Definition clear_2x1 : Image :=
  mkImage "RGBA" (2%nat, 1%nat) [[[200; 100; 50; 0]; [1; 2; 3; 0]]].

(** The sample RGB image after compositing. *)
Definition rgb_out : Image := mkImage "RGB" (3%nat, 2%nat) (pixels Sample.rgb_3x2).
End Stub.

(** ** Timed stages, call sequences and the run as a whole *)

(** The line [end(name)] prints when the interval started at clock
    reading [t0] and ends at reading [t1]. *)
Definition finished_line (self : Timer.t) (name : string) (t0 t1 : spec_float) : string :=
  name +:+ " finished in "
    +:+ PyStr.format_2f (F64.mul (F64.sub t1 t0) (Timer.time_scale self))
    +:+ Timer.time_unit self +:+ ".".

(** World and timer once [timer.start(name)] and, with no other use
    of the timer or the clock in between, [timer.end(name)] have run:
    one barrier if CUDA is there, two clock readings, one line, and
    [name] not active. *)
Definition after_stage (name : string) (p : World * Timer.t) : World * Timer.t :=
  (mkWorld (cuda_available p.1)
     (if cuda_available p.1 then S (cuda_syncs p.1) else cuda_syncs p.1)
     (clock p.1) (S (S (ticks p.1)))
     (stdout p.1 ++
      [finished_line p.2 name (clock p.1 (ticks p.1)) (clock p.1 (S (ticks p.1)))]),
   Timer.mk (delete name (Timer.items p.2)) (Timer.time_scale p.2) (Timer.time_unit p.2)).

(** World and timer after [print(line)]. *)
Definition after_print (line : string) (p : World * Timer.t) : World * Timer.t :=
  (print line p.1, p.2).

(** World and timer after [timer.start(name)] and after
    [timer.end(name)]. *)
Definition after_start (name : string) (p : World * Timer.t) : World * Timer.t :=
  ((Timer.start name p.2 p.1).2, (Timer.start name p.2 p.1).1).

Definition after_end (name : string) (p : World * Timer.t) : World * Timer.t :=
  ((Timer.end_ name p.2 p.1).2, (Timer.end_ name p.2 p.1).1.2).

(** Since [p0], world and timer [p] have printed [lines], read the
    clock [n] times and kept everything else but the active set. *)
Definition grown (p0 p : World * Timer.t) (lines : list string) (n : nat) : Prop :=
  stdout p.1 = stdout p0.1 ++ lines
  /\ ticks p.1 = (n + ticks p0.1)%nat
  /\ clock p.1 = clock p0.1
  /\ Timer.time_scale p.2 = Timer.time_scale p0.2
  /\ Timer.time_unit p.2 = Timer.time_unit p0.2.

(** A sequence of calls on the timer, first to last. *)
Definition run_all (cs : list Timer.call) (self : Timer.t) (w : World) : Timer.t * World :=
  fold_left (fun p c => Timer.run c p.1 p.2) cs (self, w).

(** Whether [name] is active after the calls [cs], given whether it
    was before: its last call decides. *)
Definition active_after (name : string) (cs : list Timer.call) (before : bool) : bool :=
  fold_left
    (fun b c =>
       match c with
       | Timer.Start n => if String.eqb n name then true else b
       | Timer.End n => if String.eqb n name then false else b
       end)
    cs before.

(** The [start] calls of [cs]. *)
Fixpoint starts (cs : list Timer.call) : nat :=
  match cs with
  | [] => 0
  | Timer.Start _ :: rest => S (starts rest)
  | Timer.End _ :: rest => starts rest
  end.

(** The [end] calls of [cs] that find their name active, given the
    names active before. *)
Fixpoint effective_ends (cs : list Timer.call) (active : gset string) : nat :=
  match cs with
  | [] => 0
  | Timer.Start n :: rest => effective_ends rest ({[n]} ∪ active)
  | Timer.End n :: rest =>
      (if bool_decide (n ∈ active) then 1 else 0)%nat + effective_ends rest (active ∖ {[n]})
  end.

Section Exec.
Context {Scene Mesh : Type}.

(** [m] started in any state ends with [r], has added exactly [evs]
    to the trace, and has taken world and timer through [f]. *)
Definition exec {A : Type} (m : M (Scene:=Scene) (Mesh:=Mesh) A)
    (evs : list (Event Scene Mesh)) (r : outcome A)
    (f : World * Timer.t -> World * Timer.t) : Prop :=
  forall s,
    m s = (mkState (f (world s, timer s)).1 (f (world s, timer s)).2 (trace s ++ evs), r).

(** The files an event writes (directories apart). *)
Definition file_written (ev : Event Scene Mesh) : option string :=
  match ev with
  | ImageSave _ path | SaveVideo _ path _ | MeshExport _ path => Some path
  | _ => None
  end.

End Exec.

(** [os.path.join(output_dir, str(i))], written out: the separator
    is added unless [output_dir] is empty or brings its own. *)
Definition index_dir (cfg : Config) (i : nat) : string :=
  if (String.eqb (output_dir cfg) "" || PyStr.endswith_sep (output_dir cfg))%bool
  then output_dir cfg +:+ PyStr.str_nat i
  else output_dir cfg +:+ "/" +:+ PyStr.str_nat i.

(** The modes other than RGBA that PIL writes as PNG. *)
Definition png_modes : list string := ["1"; "L"; "LA"; "I"; "I;16"; "P"; "RGB"].

Section Safety.
Context {Scene Mesh : Type}.

(** However [m] ends, every call it has added to the trace
    satisfies [P]. *)
Definition adds_only {A : Type} (P : Event Scene Mesh -> Prop)
    (m : M (Scene:=Scene) (Mesh:=Mesh) A) : Prop :=
  forall s s' r, m s = (s', r) ->
    exists evs, trace s' = trace s ++ evs /\ Forall P evs.

(** What a call made by the loop over [n] images can be: a model call
    on one image, a render of 30 views, an extraction without vertex
    colours, or the writing of a frame, of [render.mp4] or of the mesh
    in the directory of an index under [n]; never the making of a
    directory, never a preprocessing call. *)
Definition loop_call (cfg : Config) (n : nat) (ev : Event Scene Mesh) : Prop :=
  match ev with
  | ModelCall images dev => length images = 1%nat /\ dev = device cfg
  | ModelRender _ n_views return_type => n_views = 30%nat /\ return_type = "pil"
  | ExtractMesh _ has_vertex_color => has_vertex_color = false
  | ImageSave _ path =>
      exists i ri, (i < n)%nat /\
        path = index_dir cfg i +:+ "/render_" +:+ PyStr.format_03d ri +:+ ".png"
  | SaveVideo _ path fps =>
      exists i, (i < n)%nat /\ path = index_dir cfg i +:+ "/render.mp4" /\ fps = 30%nat
  | MeshExport _ path =>
      exists i, (i < n)%nat /\
        path = index_dir cfg i +:+ "/mesh." +:+ model_save_format cfg
  | Makedirs _ | NewSession | RemoveBackground _ | ResizeForeground _ _ => False
  end.

End Safety.

(** World and timer after a run of preprocessing and the loop that
    does not raise. *)
Definition after_pipeline (cfg : Config) (p : World * Timer.t) : World * Timer.t :=
  after_print "Processing complete."
    (after_stage "Exporting mesh"
       ((if render cfg then after_stage "Rendering" else id)
          (after_stage "Running model"
             (after_print "Running image 1/1 ..."
                (after_stage "Processing images" p))))).

(** Every byte of the array lies in [0, 255]. *)
Definition all_bytes (arr : list (list (list Z))) : Prop :=
  Forall (Forall (Forall (fun v => 0 <= v <= 255))) arr.

(** Every pixel's fourth band is [a]. *)
Definition alpha_is (a : Z) (arr : list (list (list Z))) : Prop :=
  Forall (Forall (fun px => px !! 3%nat = Some a)) arr.

Definition with_output_dir (dir : string) (cfg : Config) : Config :=
  mkConfig (image_paths cfg) (device cfg) (pretrained_model_name_or_path cfg)
    (chunk_size cfg) (no_remove_bg cfg) (foreground_ratio cfg) dir
    (model_save_format cfg) (render cfg).

(** * Properties *)

(** ** Timer *)

Lemma timer_reachable_constants (self : Timer.t) :
  Timer.reachable self ->
  Timer.time_scale self = F64.of_Z 1000 /\ Timer.time_unit self = "ms".
Proof.
  induction 1 as [|c self w Hreach [IHscale IHunit]]; [done|].
  destruct c as [name|name]; cbn.
  - done.
  - unfold Timer.end_. destruct (Timer.items self !! name); done.
Qed.

Lemma timer_start_barrier (name : string) (self : Timer.t) (w : World) :
  cuda_syncs (Timer.start name self w).2
  = if cuda_available w then S (cuda_syncs w) else cuda_syncs w.
Proof. unfold Timer.start. by destruct (cuda_available w). Qed.

Lemma timer_end_no_barrier (name : string) (self : Timer.t) (w : World) :
  cuda_syncs (Timer.end_ name self w).2 = cuda_syncs w.
Proof.
  unfold Timer.end_.
  destruct (Timer.items self !! name); [|done].
  by destruct (cuda_available w).
Qed.

Lemma timer_end_inactive (name : string) (self : Timer.t) (w : World) :
  Timer.items self !! name = None ->
  Timer.end_ name self w = (None, self, w).
Proof. intros Hnone. unfold Timer.end_. by rewrite Hnone. Qed.

Lemma timer_end_result (name : string) (self : Timer.t) (w : World) :
  (Timer.end_ name self w).1.1 = None.
Proof. unfold Timer.end_. by destruct (Timer.items self !! name). Qed.

(** C2.  On a machine with CUDA, [start "X"] runs one device barrier;
    the [end "X"] that follows it finds "X" active, prints the
    duration, and runs none: the barrier count after [end] is the
    count before it. *)
Theorem timer_end_skips_barrier :
  let '(t1, w1) := Timer.start "X" Timer.init Sample.world0 in
  let '(r, t2, w2) := Timer.end_ "X" t1 w1 in
  cuda_available Sample.world0 = true
  /\ is_Some (Timer.items t1 !! "X")
  /\ cuda_syncs w1 = S (cuda_syncs Sample.world0)
  /\ cuda_syncs w2 = cuda_syncs w1
  /\ stdout w2 = ["X finished in 1234.50ms."].
Proof. vm_compute. repeat split; by eauto. Qed.

(** C4.  [end(name)] for a name with no active interval returns
    without raising and leaves the timer, the printed output, the
    clock and the device untouched. *)
Theorem timer_end_inactive_noop (name : string) (self : Timer.t) (w : World) :
  Timer.items self !! name = None ->
  Timer.end_ name self w = (None, self, w).
Proof. apply timer_end_inactive. Qed.

Lemma timer_end_inactive_noop_witness :
  Timer.items Timer.init !! "X" = None
  /\ Timer.end_ "X" Timer.init Sample.world0 = (None, Timer.init, Sample.world0).
Proof.
  split; [reflexivity|].
  apply (timer_end_inactive_noop "X" Timer.init Sample.world0). reflexivity.
Defined.

(** C8.  [end(name)] for an active name, on the process-wide timer:
    the new active set is the old one without [name], so [name] is no
    longer active and a second [end(name)] changes nothing; every other
    name keeps its start time; and the one line printed is
    "<name> finished in <t>ms." with [t] the clock reading minus the
    start time, times 1000, in [.2f] format. *)
Theorem timer_end_active (name : string) (self : Timer.t) (w : World)
    (start_time : spec_float) :
  Timer.reachable self ->
  Timer.items self !! name = Some start_time ->
  exists self' w',
    Timer.end_ name self w = (None, self', w')
    /\ Timer.items self' = delete name (Timer.items self)
    /\ Timer.items self' !! name = None
    /\ (forall other, other <> name ->
          Timer.items self' !! other = Timer.items self !! other)
    /\ Timer.end_ name self' w' = (None, self', w')
    /\ stdout w' =
         stdout w ++
         [name +:+ " finished in "
            +:+ PyStr.format_2f
                  (F64.mul (F64.sub (clock w (ticks w)) start_time) (F64.of_Z 1000))
            +:+ "ms."].
Proof.
  intros Hreach Hactive.
  destruct (timer_reachable_constants self Hreach) as [Hscale Hunit].
  unfold Timer.end_ at 1. rewrite Hactive.
  eexists _, _. split; [reflexivity|]. cbn.
  split; [done|].
  split; [apply lookup_delete_eq|].
  split; [intros other Hne; by apply lookup_delete_ne|].
  split.
  - apply timer_end_inactive. cbn. apply lookup_delete_eq.
  - rewrite Hscale, Hunit. by destruct (cuda_available w).
Qed.

Lemma timer_end_active_witness :
  let self := (Timer.run (Timer.Start "X") Timer.init Sample.world0).1 in
  let w := (Timer.run (Timer.Start "X") Timer.init Sample.world0).2 in
  exists self' w',
    Timer.end_ "X" self w = (None, self', w')
    /\ Timer.items self' !! "X" = None
    /\ stdout w' = ["X finished in 1234.50ms."].
Proof.
  intros self w.
  destruct (timer_end_active "X" self w (clock Sample.world0 0%nat))
    as (self' & w' & Hend & _ & Hgone & _ & _ & Hout).
  - apply (Timer.reach_step (Timer.Start "X") Timer.init Sample.world0 Timer.reach_init).
  - vm_compute. reflexivity.
  - exists self', w'. split; [exact Hend|]. split; [exact Hgone|].
    rewrite Hout. vm_compute. reflexivity.
Defined.

(** C10.  Whatever the name, the timer and the world, the value
    [end(name)] gives back to its caller is [None]: the duration goes
    to the printed line only. *)
Theorem timer_end_returns_none (name : string) (self : Timer.t) (w : World) :
  (Timer.end_ name self w).1.1 = None.
Proof. apply timer_end_result. Qed.

(** ** Statements and their traces *)

Section StatementFacts.
Context {Scene Mesh : Type}.
Implicit Types (evs : list (Event Scene Mesh)) (s : State Scene Mesh).

Lemma yields_ret {A : Type} (a : A) :
  yields (Scene:=Scene) (Mesh:=Mesh) (ret a) [] (Return a).
Proof. intros s. exists s. by rewrite app_nil_r. Qed.

Lemma yields_lift {A : Type} (o : outcome A) :
  yields (Scene:=Scene) (Mesh:=Mesh) (lift o) [] o.
Proof. intros s. exists s. by rewrite app_nil_r. Qed.

Lemma yields_emit (ev : Event Scene Mesh) : yields (emit ev) [ev] (Return tt).
Proof. intros s. by eexists. Qed.

Lemma yields_bind {A B : Type} (m : M A) (k : A -> M B) a evs1 evs2 r :
  yields m evs1 (Return a) ->
  yields (k a) evs2 r ->
  yields (Scene:=Scene) (Mesh:=Mesh) (bind m k) (evs1 ++ evs2) r.
Proof.
  intros Hm Hk s.
  destruct (Hm s) as (s1 & Hrun1 & Htr1).
  destruct (Hk s1) as (s2 & Hrun2 & Htr2).
  exists s2. unfold bind. rewrite Hrun1, Hrun2.
  split; [done|]. by rewrite Htr2, Htr1, app_assoc.
Qed.

Lemma yields_bind_raised {A B : Type} (m : M A) (k : A -> M B) evs exn :
  yields m evs (Raised exn) ->
  yields (Scene:=Scene) (Mesh:=Mesh) (bind m k) evs (Raised exn).
Proof.
  intros Hm s. destruct (Hm s) as (s1 & Hrun1 & Htr1).
  exists s1. unfold bind. by rewrite Hrun1.
Qed.

Lemma yields_timer_start (name : string) :
  yields (Scene:=Scene) (Mesh:=Mesh) (timer_start name) [] (Return tt).
Proof.
  intros s. unfold timer_start.
  destruct (Timer.start name (timer s) (world s)) as [t w].
  eexists. split; [done|]. cbn. by rewrite app_nil_r.
Qed.

Lemma yields_timer_end (name : string) :
  yields (Scene:=Scene) (Mesh:=Mesh) (timer_end name) [] (Return None).
Proof.
  intros s. unfold timer_end.
  pose proof (timer_end_result name (timer s) (world s)) as Hnone.
  destruct (Timer.end_ name (timer s) (world s)) as [[r t] w].
  cbn in Hnone. subst r.
  eexists. split; [done|]. cbn. by rewrite app_nil_r.
Qed.

Lemma yields_print (line : string) :
  yields (Scene:=Scene) (Mesh:=Mesh) (py_print line) [] (Return tt).
Proof. intros s. eexists. split; [done|]. cbn. by rewrite app_nil_r. Qed.

Lemma yields_index0 {A : Type} (x : A) (rest : list A) :
  yields (Scene:=Scene) (Mesh:=Mesh) (index0 (x :: rest)) [] (Return x).
Proof. apply yields_ret. Qed.

Lemma yields_index0_nil {A : Type} :
  yields (Scene:=Scene) (Mesh:=Mesh) (index0 (@nil A)) [] (Raised "IndexError").
Proof. apply yields_lift. Qed.

Lemma yields_for_emit {A : Type} (f : nat -> A -> Event Scene Mesh)
    (start : nat) (l : list A) :
  yields (for_enumerate (fun i x => emit (f i x)) start l)
    (map (fun p => f p.1 p.2) (enumerate start l)) (Return tt).
Proof.
  revert start. induction l as [|x rest IH]; intros start.
  - apply yields_ret.
  - change (enumerate start (x :: rest)) with ((start, x) :: enumerate (S start) rest).
    cbn [map for_enumerate fst snd].
    apply (yields_bind _ _ tt [f start x]); [apply yields_emit | apply IH].
Qed.

End StatementFacts.

Lemma yields_eq {Scene Mesh A : Type} (m : M (Scene:=Scene) (Mesh:=Mesh) A)
    (evs evs' : list (Event Scene Mesh)) (r : outcome A) :
  yields m evs r -> evs = evs' -> yields m evs' r.
Proof. by intros Hm <-. Qed.

Ltac yields_base :=
  first [ apply yields_ret | apply yields_emit | apply yields_timer_start
        | apply yields_timer_end | apply yields_print | apply yields_index0
        | apply yields_lift | apply yields_for_emit ].

Ltac yields_steps :=
  repeat (cbv beta; first [ yields_base | eapply yields_bind; [yields_base|] ]).

(** ** The cells and their traces *)

Section CellFacts.
Context {Scene Mesh : Type} (libs : Libs Scene Mesh).

Lemma yields_call_remove_background (image : Image) :
  yields (call_remove_background libs image)
    [RemoveBackground image] (Return (remove_background libs image)).
Proof. eapply yields_eq; [unfold call_remove_background; yields_steps | done]. Qed.

Lemma yields_call_resize_foreground (image : Image) (ratio : spec_float) :
  yields (call_resize_foreground libs image ratio)
    [ResizeForeground image ratio] (Return (resize_foreground libs image ratio)).
Proof. eapply yields_eq; [unfold call_resize_foreground; yields_steps | done]. Qed.

Lemma yields_call_model (images : list Image) (dev : string) :
  yields (call_model libs images dev)
    [ModelCall images dev] (Return (model_call libs images dev)).
Proof. eapply yields_eq; [unfold call_model; yields_steps | done]. Qed.

Lemma yields_call_render (scene_codes : list Scene) (n : nat) (rt : string) :
  yields (call_render libs scene_codes n rt)
    [ModelRender scene_codes n rt] (Return (model_render libs scene_codes n rt)).
Proof. eapply yields_eq; [unfold call_render; yields_steps | done]. Qed.

Lemma yields_call_extract_mesh (scene_codes : list Scene) (vc : bool) :
  yields (call_extract_mesh libs scene_codes vc)
    [ExtractMesh scene_codes vc] (Return (model_extract_mesh libs scene_codes vc)).
Proof. eapply yields_eq; [unfold call_extract_mesh; yields_steps | done]. Qed.

Lemma upload_cell_yields (image : Image) (rest : list Image) :
  yields (upload_cell libs (image :: rest))
    [ImageSave (Image_resize libs image (512%nat, 512%nat)) "examples/product.png"]
    (Return image).
Proof. eapply yields_eq; [unfold upload_cell; yields_steps | done]. Qed.

Lemma preprocess_cell_yields (cfg : Config) (original_image image : Image) :
  composite (resized libs cfg original_image) = Return image ->
  yields (preprocess_cell libs cfg original_image)
    (preprocess_calls libs cfg original_image ++
     [Makedirs (image_dir cfg);
      ImageSave image (PyStr.os_path_join (image_dir cfg) ["input.png"])])
    (Return [image]).
Proof.
  intros Hcomposite. unfold preprocess_cell.
  eapply yields_eq.
  - eapply yields_bind; [yields_base|].
    eapply yields_bind; [yields_base|].
    eapply yields_bind; [apply yields_call_remove_background|].
    eapply yields_bind; [apply yields_call_resize_foreground|].
    eapply yields_bind.
    { fold (resized libs cfg original_image). rewrite Hcomposite. apply yields_lift. }
    yields_steps.
  - done.
Qed.

Lemma preprocess_cell_raises (cfg : Config) (original_image : Image) (exn : string) :
  composite (resized libs cfg original_image) = Raised exn ->
  yields (preprocess_cell libs cfg original_image)
    (preprocess_calls libs cfg original_image) (Raised exn).
Proof.
  intros Hcomposite. unfold preprocess_cell.
  eapply yields_eq.
  - eapply yields_bind; [yields_base|].
    eapply yields_bind; [yields_base|].
    eapply yields_bind; [apply yields_call_remove_background|].
    eapply yields_bind; [apply yields_call_resize_foreground|].
    eapply yields_bind_raised.
    fold (resized libs cfg original_image). rewrite Hcomposite. apply yields_lift.
  - done.
Qed.

End CellFacts.

(** ** Rendering and export *)

Lemma enumerate_cons {A : Type} (start : nat) (x : A) (l : list A) :
  enumerate start (x :: l) = (start, x) :: enumerate (S start) l.
Proof. reflexivity. Qed.

Lemma enumerate_fst {A : Type} (start : nat) (l : list A) :
  map fst (enumerate start l) = seq start (length l).
Proof.
  revert start. induction l as [|x l IH]; intros start; [done|].
  rewrite enumerate_cons. cbn. by rewrite IH.
Qed.

Lemma enumerate_snd {A : Type} (start : nat) (l : list A) :
  map snd (enumerate start l) = l.
Proof.
  revert start. induction l as [|x l IH]; intros start; [done|].
  rewrite enumerate_cons. cbn. by rewrite IH.
Qed.

Lemma format_03d_width (ri : nat) :
  (ri < 1000)%nat -> String.length (PyStr.format_03d ri) = 3%nat.
Proof.
  intros Hlt.
  assert (Hall : forallb (fun k => (String.length (PyStr.format_03d k) =? 3)%nat)
                   (seq 0 1000) = true) by (vm_compute; reflexivity).
  rewrite forallb_forall in Hall.
  apply Nat.eqb_eq, Hall, in_seq. lia.
Qed.

Section RenderExportFacts.
Context {Scene Mesh : Type} (libs : Libs Scene Mesh).

Lemma render_branch_yields (cfg : Config) (i : nat) (scene_codes : list Scene)
    (frames : list Image) (rest : list (list Image)) :
  model_render libs scene_codes 30 "pil" = frames :: rest ->
  yields (render_branch libs cfg i scene_codes)
    (render_trace cfg i scene_codes frames) (Return tt).
Proof.
  intros Hrender. unfold render_branch.
  eapply yields_eq.
  - eapply yields_bind; [yields_base|].
    eapply yields_bind; [apply yields_call_render|].
    rewrite Hrender. yields_steps.
  - done.
Qed.

Lemma render_branch_raises (cfg : Config) (i : nat) (scene_codes : list Scene) :
  model_render libs scene_codes 30 "pil" = [] ->
  yields (render_branch libs cfg i scene_codes)
    [ModelRender scene_codes 30 "pil"] (Raised "IndexError").
Proof.
  intros Hrender. unfold render_branch.
  eapply yields_eq.
  - eapply yields_bind; [yields_base|].
    eapply yields_bind; [apply yields_call_render|].
    rewrite Hrender. apply yields_bind_raised, yields_index0_nil.
  - done.
Qed.

Lemma render_stage_off (cfg : Config) (i : nat) (scene_codes : list Scene) :
  render cfg = false ->
  yields (render_stage libs cfg i scene_codes) [] (Return tt).
Proof. intros Hflag. unfold render_stage. rewrite Hflag. apply yields_ret. Qed.

Lemma render_trace_no_export (cfg : Config) (i : nat) (scene_codes : list Scene)
    (frames : list Image) :
  Forall (fun ev => is_export ev = false)
    (render_trace (Mesh:=Mesh) cfg i scene_codes frames).
Proof.
  unfold render_trace. constructor; [done|].
  apply Forall_app. split.
  - apply Forall_map, Forall_forall. by intros [ri frame] _.
  - by repeat constructor.
Qed.

Lemma loop_body_yields (cfg : Config) (n i : nat) (image : Image)
    (render_evs : list (Event Scene Mesh)) (mesh : Mesh) (others : list Mesh) :
  yields (render_stage libs cfg i (model_call libs [image] (device cfg)))
    render_evs (Return tt) ->
  model_extract_mesh libs (model_call libs [image] (device cfg)) false = mesh :: others ->
  yields (loop_body libs cfg n i image)
    (ModelCall [image] (device cfg)
     :: render_evs
     ++ [ExtractMesh (model_call libs [image] (device cfg)) false;
         MeshExport mesh (mesh_path cfg i)])
    (Return tt).
Proof.
  intros Hstage Hmeshes. unfold loop_body.
  eapply yields_eq.
  - eapply yields_bind; [yields_base|].
    eapply yields_bind; [yields_base|].
    eapply yields_bind; [apply yields_call_model|].
    eapply yields_bind; [yields_base|].
    eapply yields_bind; [apply Hstage|].
    eapply yields_bind; [yields_base|].
    eapply yields_bind; [apply yields_call_extract_mesh|].
    rewrite Hmeshes. yields_steps.
  - cbn. by rewrite ?app_nil_r.
Qed.

(** C6.  One pass of the loop, for the image at index [i], when the
    model answers each request it gets: whether the render flag is set
    or not, the pass ends normally and its last two calls are exactly
    one mesh extraction on the scene codes of this image and one export
    of the first mesh to [os.path.join(output_dir, str(i),
    "mesh." + model_save_format)]; nothing before them is an extraction
    or an export.  Between the model call and the extraction lie the
    render calls when the flag is set, and nothing when it is not. *)
Theorem loop_body_exports_render_gated (cfg : Config) (n i : nat) (image : Image)
    (mesh : Mesh) (others : list Mesh) :
  (render cfg = true ->
   model_render libs (model_call libs [image] (device cfg)) 30 "pil" <> []) ->
  model_extract_mesh libs (model_call libs [image] (device cfg)) false = mesh :: others ->
  exists render_evs,
    yields (loop_body libs cfg n i image)
      (ModelCall [image] (device cfg)
       :: render_evs
       ++ [ExtractMesh (model_call libs [image] (device cfg)) false;
           MeshExport mesh (mesh_path cfg i)])
      (Return tt)
    /\ Forall (fun ev => is_export ev = false) render_evs
    /\ (render cfg = false -> render_evs = [])
    /\ (render cfg = true ->
        exists frames,
          head (model_render libs (model_call libs [image] (device cfg)) 30 "pil")
            = Some frames
          /\ render_evs
             = render_trace cfg i (model_call libs [image] (device cfg)) frames)
    /\ mesh_path cfg i =
         PyStr.os_path_join (output_dir cfg)
           [PyStr.str_nat i; "mesh." +:+ model_save_format cfg].
Proof.
  intros Hrender Hmeshes.
  destruct (render cfg) eqn:Hflag.
  - destruct (model_render libs (model_call libs [image] (device cfg)) 30 "pil")
      as [|frames rest] eqn:Hframes; [by destruct Hrender|].
    exists (render_trace cfg i (model_call libs [image] (device cfg)) frames).
    split; [|split; [apply render_trace_no_export|split; [done|split; [|done]]]].
    + apply (loop_body_yields _ _ _ _ _ _ others); [|done].
      unfold render_stage. rewrite Hflag. by apply (render_branch_yields _ _ _ _ rest).
    + intros _. by exists frames.
  - exists []. split; [|by repeat split].
    apply (loop_body_yields _ _ _ _ _ _ others); [|done].
    by apply render_stage_off.
Qed.

End RenderExportFacts.

Lemma loop_body_exports_render_gated_witness :
  exists render_evs,
    yields (loop_body Sample.libs notebook_config 1 0 Sample.rgb_3x2)
      (ModelCall [Sample.rgb_3x2] "cuda:0"
       :: render_evs
       ++ [ExtractMesh [0%nat] false; MeshExport 0%nat "output/0/mesh.obj"])
      (Return tt).
Proof.
  destruct (loop_body_exports_render_gated Sample.libs notebook_config 1 0
              Sample.rgb_3x2 0%nat [])
    as (render_evs & Hyields & _).
  - intros _. vm_compute. discriminate.
  - reflexivity.
  - exists render_evs. exact Hyields.
Defined.

(** ** Paths below the image directory *)

Lemma append_not_empty (a y : string) :
  y <> "" -> String.eqb (a +:+ y) "" = false.
Proof. intros Hy. destruct a, y; done. Qed.

Lemma endswith_sep_append (a y : string) :
  y <> "" -> PyStr.endswith_sep (a +:+ y) = PyStr.endswith_sep y.
Proof.
  intros Hy. induction a as [|c a IH]; [done|].
  change (String c a +:+ y) with (String c (a +:+ y)). rewrite <- IH.
  destruct (a +:+ y) eqn:Happ; [|done].
  destruct a, y; done.
Qed.

Lemma join_zero_open (a : string) :
  let dir := PyStr.os_path_join a ["0"] in
  String.eqb dir "" = false /\ PyStr.endswith_sep dir = false.
Proof.
  cbn. unfold PyStr.join2. cbn [PyStr.startswith_sep Ascii.eqb Bool.eqb].
  destruct (String.eqb a "" || PyStr.endswith_sep a).
  - by rewrite append_not_empty, endswith_sep_append.
  - by rewrite append_not_empty, endswith_sep_append.
Qed.

Lemma join_below_zero (a name : string) :
  PyStr.startswith_sep name = false ->
  PyStr.os_path_join a ["0"; name] = PyStr.os_path_join a ["0"] +:+ "/" +:+ name.
Proof.
  intros Hname.
  destruct (join_zero_open a) as [Hne Hend].
  change (PyStr.os_path_join a ["0"; name])
    with (PyStr.join2 (PyStr.os_path_join a ["0"]) name).
  unfold PyStr.join2 at 1. by rewrite Hname, Hne, Hend.
Qed.

Lemma under_image_dir (cfg : Config) (name : string) :
  PyStr.startswith_sep name = false ->
  under (image_dir cfg) (PyStr.os_path_join (output_dir cfg) ["0"; name]).
Proof. intros Hname. right. exists name. by apply join_below_zero. Qed.

Lemma input_png_path (cfg : Config) :
  PyStr.os_path_join (image_dir cfg) ["input.png"] = image_dir cfg +:+ "/input.png".
Proof.
  destruct (join_zero_open (output_dir cfg)) as [Hne Hend].
  change (PyStr.os_path_join (output_dir cfg) ["0"]) with (image_dir cfg) in Hne, Hend.
  change (PyStr.os_path_join (image_dir cfg) ["input.png"])
    with (PyStr.join2 (image_dir cfg) "input.png").
  unfold PyStr.join2. change (PyStr.startswith_sep "input.png") with false.
  by rewrite Hne, Hend.
Qed.

(** ** Where a run writes *)

Section WritesFacts.
Context {Scene Mesh : Type} (libs : Libs Scene Mesh).

Lemma writes_under_of_yields {A : Type} (dir : string)
    (m : M (Scene:=Scene) (Mesh:=Mesh) A) evs r :
  yields m evs r -> all_under dir evs -> writes_under dir m.
Proof.
  intros Hm Hevs s s' r' Hrun.
  destruct (Hm s) as (s1 & Hrun1 & Htr1).
  rewrite Hrun in Hrun1. injection Hrun1 as -> ->. by exists evs.
Qed.

Lemma writes_under_bind {A B : Type} (dir : string)
    (m : M (Scene:=Scene) (Mesh:=Mesh) A) (k : A -> M B) :
  writes_under dir m -> (forall a, writes_under dir (k a)) ->
  writes_under dir (bind m k).
Proof.
  intros Hm Hk s s' r. unfold bind.
  destruct (m s) as [s1 [a|exn]] eqn:Hrun1; intros Hrun.
  - destruct (Hm _ _ _ Hrun1) as (evs1 & Htr1 & Hall1).
    destruct (Hk a _ _ _ Hrun) as (evs2 & Htr2 & Hall2).
    exists (evs1 ++ evs2). split.
    + by rewrite Htr2, Htr1, app_assoc.
    + by apply Forall_app.
  - injection Hrun as <- <-. by apply (Hm _ _ _ Hrun1).
Qed.

Lemma all_under_nil (dir : string) : all_under (Scene:=Scene) (Mesh:=Mesh) dir [].
Proof. constructor. Qed.

Lemma all_under_silent (dir : string) (ev : Event Scene Mesh) :
  written_path ev = None -> all_under dir [ev].
Proof. intros Hnone. constructor; [|constructor]. intros path. by rewrite Hnone. Qed.

Lemma all_under_write (dir path : string) (ev : Event Scene Mesh) :
  written_path ev = Some path -> under dir path -> all_under dir [ev].
Proof.
  intros Hpath Hunder. constructor; [|constructor].
  intros path'. rewrite Hpath. by intros [= <-].
Qed.

Lemma writes_under_quiet {A : Type} (dir : string)
    (m : M (Scene:=Scene) (Mesh:=Mesh) A) r :
  yields m [] r -> writes_under dir m.
Proof. intros Hm. eapply writes_under_of_yields; [exact Hm | apply all_under_nil]. Qed.

Lemma writes_under_index0 {A : Type} (dir : string) (l : list A) :
  writes_under (Scene:=Scene) (Mesh:=Mesh) dir (index0 l).
Proof.
  destruct l.
  - eapply writes_under_quiet, yields_index0_nil.
  - eapply writes_under_quiet, yields_index0.
Qed.

Lemma writes_under_frames (cfg : Config) (frames : list Image) :
  writes_under (Scene:=Scene) (Mesh:=Mesh) (image_dir cfg)
    (for_enumerate
       (fun ri render_image => emit (ImageSave render_image (frame_path cfg 0 ri)))
       0 frames).
Proof.
  eapply writes_under_of_yields; [apply yields_for_emit|].
  apply Forall_map, Forall_forall. intros [ri frame] _ path [= <-].
  by apply under_image_dir.
Qed.

Lemma writes_under_render_stage (cfg : Config) (scene_codes : list Scene) :
  writes_under (image_dir cfg) (render_stage libs cfg 0 scene_codes).
Proof.
  unfold render_stage. destruct (render cfg).
  - unfold render_branch.
    apply writes_under_bind; [eapply writes_under_quiet, yields_timer_start|intros _].
    apply writes_under_bind; [|intros render_images].
    { eapply writes_under_of_yields; [apply yields_call_render|].
      by apply all_under_silent. }
    apply writes_under_bind; [apply writes_under_index0|intros frames].
    apply writes_under_bind; [apply writes_under_frames|intros _].
    apply writes_under_bind; [apply writes_under_index0|intros frames'].
    apply writes_under_bind; [|intros _].
    { eapply writes_under_of_yields; [apply yields_emit|].
      eapply all_under_write; [done|]. by apply under_image_dir. }
    apply writes_under_bind; [eapply writes_under_quiet, yields_timer_end|intros _].
    eapply writes_under_quiet, yields_ret.
  - eapply writes_under_quiet, yields_ret.
Qed.

Lemma writes_under_loop_body (cfg : Config) (n : nat) (image : Image) :
  writes_under (image_dir cfg) (loop_body libs cfg n 0 image).
Proof.
  unfold loop_body.
  apply writes_under_bind; [eapply writes_under_quiet, yields_print|intros _].
  apply writes_under_bind; [eapply writes_under_quiet, yields_timer_start|intros _].
  apply writes_under_bind; [|intros scene_codes].
  { eapply writes_under_of_yields; [apply yields_call_model|].
    by apply all_under_silent. }
  apply writes_under_bind; [eapply writes_under_quiet, yields_timer_end|intros _].
  apply writes_under_bind; [apply writes_under_render_stage|intros _].
  apply writes_under_bind; [eapply writes_under_quiet, yields_timer_start|intros _].
  apply writes_under_bind; [|intros meshes].
  { eapply writes_under_of_yields; [apply yields_call_extract_mesh|].
    by apply all_under_silent. }
  apply writes_under_bind; [apply writes_under_index0|intros mesh].
  apply writes_under_bind; [|intros _].
  { eapply writes_under_of_yields; [apply yields_emit|].
    eapply all_under_write; [done|]. by apply under_image_dir. }
  apply writes_under_bind; [eapply writes_under_quiet, yields_timer_end|intros _].
  eapply writes_under_quiet, yields_ret.
Qed.

Lemma writes_under_loop_cell_one (cfg : Config) (image : Image) :
  writes_under (image_dir cfg) (loop_cell libs cfg [image]).
Proof.
  unfold loop_cell. cbn [for_enumerate length].
  apply writes_under_bind; [|intros _; eapply writes_under_quiet, yields_print].
  apply writes_under_bind; [apply writes_under_loop_body|intros _].
  eapply writes_under_quiet, yields_ret.
Qed.

Lemma writes_under_after {A B : Type} (dir : string)
    (m : M (Scene:=Scene) (Mesh:=Mesh) A) (k : A -> M B) a evs :
  yields m evs (Return a) -> all_under dir evs -> writes_under dir (k a) ->
  writes_under dir (bind m k).
Proof.
  intros Hm Hevs Hk s s' r. unfold bind.
  destruct (Hm s) as (s1 & -> & Htr1). intros Hrun.
  destruct (Hk _ _ _ Hrun) as (evs2 & Htr2 & Hall2).
  exists (evs ++ evs2). split.
  - by rewrite Htr2, Htr1, app_assoc.
  - by apply Forall_app.
Qed.

Lemma all_under_preprocess_calls (cfg : Config) (original_image : Image) :
  all_under (image_dir cfg) (preprocess_calls libs cfg original_image).
Proof.
  unfold all_under, preprocess_calls.
  repeat (constructor; [by intros path|]). constructor.
Qed.

Lemma writes_under_pipeline (cfg : Config) (original_image : Image) :
  writes_under (image_dir cfg) (pipeline libs cfg original_image).
Proof.
  unfold pipeline.
  destruct (composite (resized libs cfg original_image)) as [image|exn] eqn:Hcomposite.
  - eapply writes_under_after.
    + by apply preprocess_cell_yields.
    + apply Forall_app. split; [apply all_under_preprocess_calls|].
      constructor; [intros path [= <-]; by left|].
      eapply all_under_write; [done|]. right. exists "input.png".
      apply input_png_path.
    + apply writes_under_loop_cell_one.
  - eapply writes_under_of_yields.
    + by apply yields_bind_raised, preprocess_cell_raises.
    + apply all_under_preprocess_calls.
Qed.

(** C9.  A run of the preprocessing cell and the loop, whatever the
    configuration, the image and the libraries: [images] has length one
    whenever preprocessing returns; [input.png] goes to the directory
    [os.path.join(output_dir, "0")], the index written as a literal;
    the loop over a one-image list is one pass with [i = 0]; and every
    path the run writes to, however it ends, is that directory or lies
    below it. *)
Theorem pipeline_one_image_under_zero (cfg : Config) (original_image : Image) :
  (forall s, match (preprocess_cell libs cfg original_image s).2 with
             | Return images => length images = 1%nat
             | Raised _ => True
             end)
  /\ (forall image,
        composite (resized libs cfg original_image) = Return image ->
        yields (preprocess_cell libs cfg original_image)
          (preprocess_calls libs cfg original_image ++
           [Makedirs (image_dir cfg);
            ImageSave image (image_dir cfg +:+ "/input.png")])
          (Return [image]))
  /\ image_dir cfg = PyStr.os_path_join (output_dir cfg) ["0"]
  /\ (forall image,
        loop_cell libs cfg [image]
        = ((loop_body libs cfg 1 0 image ;; ret tt) ;;
           py_print "Processing complete."))
  /\ writes_under (image_dir cfg) (pipeline libs cfg original_image).
Proof.
  split; [|split; [|split; [done|split; [done|apply writes_under_pipeline]]]].
  - intros s.
    destruct (composite (resized libs cfg original_image)) as [image|exn] eqn:Hcomposite.
    + destruct (preprocess_cell_yields libs cfg original_image image Hcomposite s)
        as (s' & -> & _). done.
    + destruct (preprocess_cell_raises libs cfg original_image exn Hcomposite s)
        as (s' & -> & _). done.
  - intros image Hcomposite. rewrite <- input_png_path.
    by apply preprocess_cell_yields.
Qed.

End WritesFacts.

(** ** Alpha compositing *)

Lemma F32_mul_comm (x y : spec_float) : F32.mul x y = F32.mul y x.
Proof.
  unfold F32.mul, SFmul.
  destruct x as [sx|sx| |sx mx ex], y as [sy|sy| |sy my ey];
    try reflexivity; try (by rewrite xorb_comm).
  by rewrite xorb_comm, Pos.mul_comm, Z.add_comm.
Qed.

Lemma mapM_pointwise {A B : Type} (f : A -> option B) (g : A -> B) (l : list A) :
  Forall (fun x => f x = Some (g x)) l -> mapM f l = Some (map g l).
Proof.
  induction 1 as [|x l Hx Hl IH]; [done|].
  cbn. rewrite Hx. cbn. by rewrite IH.
Qed.

Lemma blend_pixel_rgba (r g b a : Z) :
  Np.blend_pixel (map unit_scale [r; g; b; a])
  = Some [F32.add (F32.mul (unit_scale r) (unit_scale a))
            (F32.mul F32.half (F32.sub (F32.of_Z 1) (unit_scale a)));
          F32.add (F32.mul (unit_scale g) (unit_scale a))
            (F32.mul F32.half (F32.sub (F32.of_Z 1) (unit_scale a)));
          F32.add (F32.mul (unit_scale b) (unit_scale a))
            (F32.mul F32.half (F32.sub (F32.of_Z 1) (unit_scale a)))].
Proof.
  unfold Np.blend_pixel. cbn.
  by rewrite (F32_mul_comm _ F32.half).
Qed.

(** The preprocessing cell's blend, one pixel from bytes to bytes. *)
Lemma blend_pixel_bytes (px : list Z) :
  length px = 4%nat ->
  (fun out => map (fun v => F32.to_uint8 (F32.mul v (F32.of_Z 255))) out)
    <$> Np.blend_pixel (map unit_scale px)
  = Some (blend_rgba px).
Proof.
  intros Hlen.
  destruct px as [|r [|g [|b [|a [|? ?]]]]]; try discriminate.
  by rewrite blend_pixel_rgba.
Qed.

Lemma blend_row_bytes (row : list (list Z)) :
  Forall (fun px => length px = 4%nat) row ->
  map (map (fun v => F32.to_uint8 (F32.mul v (F32.of_Z 255))))
    <$> mapM Np.blend_pixel (map (map unit_scale) row)
  = Some (map blend_rgba row).
Proof.
  induction 1 as [|px row Hpx Hrow IH]; [done|].
  pose proof (blend_pixel_bytes px Hpx) as Hhead.
  cbn [map mapM].
  destruct (Np.blend_pixel (map unit_scale px)) as [out|]; [|done].
  destruct (mapM Np.blend_pixel (map (map unit_scale) row)) as [outs|]; [|done].
  cbn [fmap option_fmap option_map map mbind option_bind mret option_ret] in *.
  congruence.
Qed.

Lemma blend_array_bytes (arr : list (list (list Z))) :
  Forall (fun row => Forall (fun px => length px = 4%nat) row) arr ->
  Np.to_bytes <$> mapM (mapM Np.blend_pixel) (map (map (map unit_scale)) arr)
  = Some (map (map blend_rgba) arr).
Proof.
  induction 1 as [|row arr Hrow Harr IH]; [done|].
  pose proof (blend_row_bytes row Hrow) as Hhead.
  cbn [map mapM].
  destruct (mapM Np.blend_pixel (map (map unit_scale) row)) as [out|]; [|done].
  destruct (mapM (mapM Np.blend_pixel) (map (map (map unit_scale)) arr)) as [outs|];
    [|done].
  unfold Np.to_bytes in *.
  cbn [fmap option_fmap option_map map mbind option_bind mret option_ret] in *.
  congruence.
Qed.

Lemma blend_rgba_bands (arr : list (list (list Z))) :
  has_bands 4 arr -> has_bands 3 (map (map blend_rgba) arr).
Proof.
  intros [Hne Hrows]. split; [by destruct arr|].
  apply Forall_map. eapply Forall_impl; [exact Hrows|].
  intros row [Hrow Hpixels]. split; [by destruct row|].
  apply Forall_map. eapply Forall_impl; [exact Hpixels|].
  intros px Hlen. by destruct px as [|r [|g [|b [|a [|? ?]]]]].
Qed.

Lemma composite_rgba (image : Image) :
  mode image = "RGBA" ->
  has_bands 4 (pixels image) ->
  composite image
  = Return (mkImage "RGB"
              (length (hd [] (pixels image)), length (pixels image))
              (map (map blend_rgba) (pixels image))).
Proof.
  intros Hmode Hbands.
  pose proof (blend_rgba_bands _ Hbands) as Hout.
  destruct Hbands as [Hne Hrows].
  unfold composite. rewrite Hmode. change (String.eqb "RGBA" "RGBA") with true.
  cbv iota.
  assert (Hblend := blend_array_bytes (pixels image)).
  change (map (map (map unit_scale)) (pixels image)) with (Np.normalized image) in Hblend.
  destruct (mapM (mapM Np.blend_pixel) (Np.normalized image)) as [arr|].
  - rewrite Forall_forall in Hrows.
    assert (Hbytes : Np.to_bytes arr = map (map blend_rgba) (pixels image)).
    { cbn in Hblend. injection Hblend; [done|].
      apply Forall_forall. intros row Hin. by apply Hrows. }
    rewrite Hbytes. clear Hblend Hbytes.
    destruct (pixels image) as [|row rows]; [done|].
    destruct (Hrows row) as [Hrow Hpixels]; [by left|].
    destruct row as [|px row]; [done|].
    apply Forall_cons in Hpixels as [Hpx _].
    destruct px as [|r [|g [|b [|a [|? ?]]]]]; try discriminate.
    unfold Image_fromarray, Np.shape. cbn. by rewrite !length_map.
  - exfalso. cbn in Hblend.
    assert (None = Some (map (map blend_rgba) (pixels image))) as Habs; [|done].
    apply Hblend, Forall_forall. intros row Hin.
    rewrite Forall_forall in Hrows. by apply Hrows.
Qed.

Section PreprocessFacts.
Context {Scene Mesh : Type} (libs : Libs Scene Mesh).

(** C3.  When the image that comes out of foreground resizing is RGBA
    (four bands in every pixel), the preprocessing cell returns and
    leaves one image in [images]: its mode is RGB, every pixel has
    three bands, its size is the size of the array it came from, and
    each pixel [r, g, b, a] has become the three bytes
    [c/255 * a/255 + 0.5 * (1 - a/255)], [c] being [r], [g], [b], scaled
    by 255 and cut to a byte, all in [float32].  The same image is what
    the cell saves as [input.png]. *)
Theorem preprocess_composites_rgba (cfg : Config) (original_image : Image) :
  mode (resized libs cfg original_image) = "RGBA" ->
  has_bands 4 (pixels (resized libs cfg original_image)) ->
  exists out,
    yields (preprocess_cell libs cfg original_image)
      (preprocess_calls libs cfg original_image ++
       [Makedirs (image_dir cfg);
        ImageSave out (PyStr.os_path_join (image_dir cfg) ["input.png"])])
      (Return [out])
    /\ mode out = "RGB"
    /\ has_bands 3 (pixels out)
    /\ pixels out = map (map blend_rgba) (pixels (resized libs cfg original_image))
    /\ size out = (length (hd [] (pixels out)), length (pixels out)).
Proof.
  intros Hmode Hbands.
  pose proof (composite_rgba _ Hmode Hbands) as Hcomposite.
  eexists. split; [by apply preprocess_cell_yields|].
  cbn [mode pixels size].
  split; [done|]. split; [by apply blend_rgba_bands|]. split; [done|].
  rewrite length_map. destruct Hbands as [Hne _].
  destruct (pixels (resized libs cfg original_image)); [done|].
  cbn. by rewrite length_map.
Qed.

Lemma preprocess_cell_flag_irrelevant (flag : bool) (cfg : Config)
    (original_image : Image) :
  preprocess_cell libs (with_no_remove_bg flag cfg) original_image
  = preprocess_cell libs cfg original_image.
Proof. reflexivity. Qed.

Lemma pipeline_starts_with_calls (cfg : Config) (original_image : Image)
    (s : State Scene Mesh) :
  exists s' r evs,
    pipeline libs cfg original_image s = (s', r)
    /\ trace s' = trace s ++ preprocess_calls libs cfg original_image ++ evs.
Proof.
  unfold pipeline, bind.
  destruct (composite (resized libs cfg original_image)) as [image|exn] eqn:Hcomposite.
  - destruct (preprocess_cell_yields libs cfg original_image image Hcomposite s)
      as (s1 & -> & Htr1).
    destruct (loop_cell libs cfg [image] s1) as [s2 r] eqn:Hloop.
    destruct (writes_under_loop_cell_one libs cfg image s1 s2 r Hloop)
      as (evs2 & Htr2 & _).
    eexists s2, r, _. split; [done|].
    by rewrite Htr2, Htr1, <- !app_assoc.
  - destruct (preprocess_cell_raises libs cfg original_image exn Hcomposite s)
      as (s1 & -> & Htr1).
    eexists s1, _, []. split; [done|]. by rewrite app_nil_r.
Qed.

Lemma notebook_trace_prefix (cfg : Config) (image : Image) (rest : list Image)
    (s : State Scene Mesh) :
  exists s' r evs,
    notebook libs cfg (image :: rest) s = (s', r)
    /\ trace s' =
         trace s ++
         ImageSave (Image_resize libs image (512%nat, 512%nat)) "examples/product.png"
         :: NewSession :: RemoveBackground image :: evs.
Proof.
  unfold notebook, bind.
  destruct (upload_cell_yields libs image rest s) as (s1 & -> & Htr1).
  destruct (pipeline_starts_with_calls cfg image s1) as (s2 & r & evs & -> & Htr2).
  eexists s2, r, _. split; [done|].
  rewrite Htr2, Htr1, <- app_assoc. done.
Qed.

End PreprocessFacts.

Lemma preprocess_composites_rgba_witness :
  mode (resized Sample.libs notebook_config Sample.rgba_2x1) = "RGBA"
  /\ exists out,
       yields (preprocess_cell Sample.libs notebook_config Sample.rgba_2x1)
         (preprocess_calls Sample.libs notebook_config Sample.rgba_2x1 ++
          [Makedirs "output/0"; ImageSave out "output/0/input.png"])
         (Return [out])
       /\ mode out = "RGB"
       /\ pixels out = [[[200; 100; 50]; [127; 127; 127]]].
Proof.
  split; [reflexivity|].
  destruct (preprocess_composites_rgba Sample.libs notebook_config Sample.rgba_2x1)
    as (out & Hyields & Hmode & _ & Hpixels & _).
  - reflexivity.
  - split; [discriminate|].
    repeat (constructor; [split; [discriminate|]; repeat (constructor; [reflexivity|]);
                          constructor|]).
    constructor.
  - exists out. split; [exact Hyields|]. split; [exact Hmode|].
    rewrite Hpixels. vm_compute. reflexivity.
Defined.

(** C1.  The notebook's configuration sets [no_remove_bg = True], and
    the preprocessing cell run on a 3x2 RGB image still opens a rembg
    session and calls [remove_background] on the image before
    [resize_foreground]; what reaches [resize_foreground] is the result
    of that call.  The cell never reads the flag: with the flag set
    either way it is the same statement. *)
Theorem preprocess_ignores_no_remove_bg :
  no_remove_bg notebook_config = true
  /\ trace (preprocess_cell Sample.libs notebook_config Sample.rgb_3x2 Sample.state0).1
     = [NewSession;
        RemoveBackground Sample.rgb_3x2;
        ResizeForeground (remove_background Sample.libs Sample.rgb_3x2)
          (foreground_ratio notebook_config);
        Makedirs "output/0";
        ImageSave (mkImage "RGB" (3%nat, 2%nat) (pixels Sample.rgb_3x2))
          "output/0/input.png"]
  /\ (forall flag,
        preprocess_cell Sample.libs (with_no_remove_bg flag notebook_config)
          Sample.rgb_3x2
        = preprocess_cell Sample.libs notebook_config Sample.rgb_3x2).
Proof.
  split; [reflexivity|]. split; [vm_compute; reflexivity|].
  intros flag. apply preprocess_cell_flag_irrelevant.
Qed.

(** C7.  A 3x2 image is uploaded.  The upload cell saves a 512x512
    copy to [examples/product.png] and leaves [original_image] as it
    was; the image [remove_background] then receives is the 3x2 one. *)
Theorem preprocessor_gets_unresized_image :
  exists s' r evs,
    notebook Sample.libs notebook_config [Sample.rgb_3x2] Sample.state0 = (s', r)
    /\ trace s' =
         ImageSave (Image_resize Sample.libs Sample.rgb_3x2 (512%nat, 512%nat))
           "examples/product.png"
         :: NewSession :: RemoveBackground Sample.rgb_3x2 :: evs
    /\ size (Image_resize Sample.libs Sample.rgb_3x2 (512%nat, 512%nat))
       = (512%nat, 512%nat)
    /\ size Sample.rgb_3x2 = (3%nat, 2%nat).
Proof.
  destruct (notebook_trace_prefix Sample.libs notebook_config Sample.rgb_3x2 []
              Sample.state0) as (s' & r & evs & Hrun & Htrace).
  exists s', r, evs. split; [exact Hrun|]. split; [exact Htrace|]. by split.
Qed.

(** An opaque pixel keeps its bytes and a transparent one turns into
    the gray 127, whatever its colour. *)
Lemma blend_channel_ends (c : Z) :
  0 <= c <= 255 -> blend_channel c 255 = c /\ blend_channel c 0 = 127.
Proof.
  intros Hc.
  assert (Hall :
    forallb (fun c' =>
      (blend_channel (Z.of_nat c') 255 =? Z.of_nat c')
      && (blend_channel (Z.of_nat c') 0 =? 127)) (seq 0 256) = true)
    by (vm_compute; reflexivity).
  rewrite forallb_forall in Hall.
  specialize (Hall (Z.to_nat c) ltac:(apply in_seq; lia)).
  rewrite !Z2Nat.id in Hall by lia.
  apply andb_true_iff in Hall as [Hopaque Hclear].
  by apply Z.eqb_eq in Hopaque, Hclear.
Qed.

Example blend_opaque : blend_rgba [200; 100; 50; 255] = [200; 100; 50].
Proof. vm_compute. reflexivity. Qed.

Example blend_transparent : blend_rgba [9; 9; 9; 0] = [127; 127; 127].
Proof. vm_compute. reflexivity. Qed.

(** ** The notebook's own values *)

Example notebook_frame_path : frame_path notebook_config 0 7 = "output/0/render_007.png".
Proof. reflexivity. Qed.

Example notebook_video_path : video_path notebook_config 0 = "output/0/render.mp4".
Proof. reflexivity. Qed.

Example notebook_mesh_path : mesh_path notebook_config 0 = "output/0/mesh.obj".
Proof. reflexivity. Qed.

Example notebook_image_dir : image_dir notebook_config = "output/0".
Proof. reflexivity. Qed.

Example format_2f_half_even :
  PyStr.format_2f (F64.div (F64.of_Z 1) (F64.of_Z 8)) = "0.12"
  /\ PyStr.format_2f (F64.div (F64.of_Z 3) (F64.of_Z 8)) = "0.38"
  /\ PyStr.format_2f (F64.div (F64.of_Z 2675) (F64.of_Z 1000)) = "2.67"
  /\ PyStr.format_2f (F64.div (F64.of_Z (-1)) (F64.of_Z 1000)) = "-0.00".
Proof. vm_compute. by repeat split. Qed.

(** The whole run on the sample image: six lines printed, every stage
    timed, nothing raised. *)
Example sample_run_output :
  let '(s, r) := pipeline Sample.libs notebook_config Sample.rgb_3x2 Sample.state0 in
  r = Return tt
  /\ stdout (world s)
     = ["Processing images finished in 1234.50ms."; "Running image 1/1 ...";
        "Running model finished in 1234.50ms."; "Rendering finished in 1234.50ms.";
        "Exporting mesh finished in 1234.50ms."; "Processing complete."]
  /\ length (trace s) = 40%nat.
Proof. vm_compute. by repeat split. Qed.

(** * Further properties *)

(** ** Timer: start, end and sequences of calls *)

Lemma timer_start_eq (name : string) (self : Timer.t) (w : World) :
  Timer.start name self w
  = (Timer.mk (<[name := clock w (ticks w)]> (Timer.items self))
       (Timer.time_scale self) (Timer.time_unit self),
     mkWorld (cuda_available w)
       (if cuda_available w then S (cuda_syncs w) else cuda_syncs w)
       (clock w) (S (ticks w)) (stdout w)).
Proof.
  unfold Timer.start.
  destruct (cuda_available w) eqn:Hcuda; cbn; by rewrite ?Hcuda.
Qed.

Lemma timer_end_eq (name : string) (self : Timer.t) (w : World) (t0 : spec_float) :
  Timer.items self !! name = Some t0 ->
  Timer.end_ name self w
  = (None,
     Timer.mk (delete name (Timer.items self)) (Timer.time_scale self)
       (Timer.time_unit self),
     mkWorld (cuda_available w) (cuda_syncs w) (clock w) (S (ticks w))
       (stdout w ++ [finished_line self name t0 (clock w (ticks w))])).
Proof.
  intros Hactive. unfold Timer.end_. rewrite Hactive.
  unfold cuda_synchronize_name, print, finished_line.
  destruct (cuda_available w) eqn:Hcuda; cbn; by rewrite ?Hcuda.
Qed.

Lemma timer_start_end_eq (name : string) (self : Timer.t) (w : World) :
  Timer.end_ name (Timer.start name self w).1 (Timer.start name self w).2
  = (None, (after_stage name (w, self)).2, (after_stage name (w, self)).1).
Proof.
  rewrite timer_start_eq. cbn [fst snd].
  rewrite (timer_end_eq _ _ _ (clock w (ticks w))) by apply lookup_insert_eq.
  unfold after_stage. cbn. by rewrite delete_insert_eq.
Qed.

(** X1.  [start(name)] directly followed by [end(name)], from any
    timer and world: [end] returns [None], prints one line whose
    duration is the second clock reading minus the first, times the
    scale; one barrier has run if CUDA is there; and [name] is not
    active afterwards, every other name keeping its entry. *)
Theorem timer_start_then_end (name : string) (self : Timer.t) (w : World) :
  Timer.end_ name (Timer.start name self w).1 (Timer.start name self w).2
  = (None,
     Timer.mk (delete name (Timer.items self)) (Timer.time_scale self)
       (Timer.time_unit self),
     mkWorld (cuda_available w)
       (if cuda_available w then S (cuda_syncs w) else cuda_syncs w)
       (clock w) (S (S (ticks w)))
       (stdout w ++
        [finished_line self name (clock w (ticks w)) (clock w (S (ticks w)))])).
Proof. apply timer_start_end_eq. Qed.

(** X2.  [start(name)] twice and then [end(name)]: the first start
    time is lost without a word; the line printed measures from the
    second [start] (clock readings 2 and 3 of the three taken), and
    [name] is not active afterwards. *)
Theorem timer_restart_overwrites (name : string) (self : Timer.t) (w : World) :
  let '(t1, w1) := Timer.start name self w in
  let '(t2, w2) := Timer.start name t1 w1 in
  Timer.end_ name t2 w2
  = (None,
     Timer.mk (delete name (Timer.items self)) (Timer.time_scale self)
       (Timer.time_unit self),
     mkWorld (cuda_available w)
       (if cuda_available w then S (S (cuda_syncs w)) else cuda_syncs w)
       (clock w) (S (S (S (ticks w))))
       (stdout w ++
        [finished_line self name (clock w (S (ticks w))) (clock w (S (S (ticks w))))])).
Proof.
  rewrite !timer_start_eq.
  rewrite (timer_end_eq _ _ _ (clock w (S (ticks w)))) by apply lookup_insert_eq.
  cbn. rewrite insert_insert_eq, delete_insert_eq.
  by destruct (cuda_available w).
Qed.

(** X3.  Intervals with different names do not disturb each other:
    after [start(a)], [start(b)], [end(a)] with [a <> b], the line for
    [a] measures from [a]'s own start to the third clock reading, [b]
    is still active with the second reading as its start time, and
    every name other than [a] and [b] has the entry it had. *)
Theorem timer_names_independent (a b : string) (self : Timer.t) (w : World) :
  a <> b ->
  let '(t1, w1) := Timer.start a self w in
  let '(t2, w2) := Timer.start b t1 w1 in
  let '(r, t3, w3) := Timer.end_ a t2 w2 in
  r = None
  /\ stdout w3 =
       stdout w ++
       [finished_line self a (clock w (ticks w)) (clock w (S (S (ticks w))))]
  /\ Timer.items t3 !! a = None
  /\ Timer.items t3 !! b = Some (clock w (S (ticks w)))
  /\ (forall other, other <> a -> other <> b ->
        Timer.items t3 !! other = Timer.items self !! other).
Proof.
  intros Hne. rewrite !timer_start_eq.
  rewrite (timer_end_eq _ _ _ (clock w (ticks w))).
  2:{ cbn. rewrite lookup_insert_ne by done. apply lookup_insert_eq. }
  cbn. split; [done|]. split; [done|].
  split; [apply lookup_delete_eq|].
  split.
  - rewrite lookup_delete_ne by done. apply lookup_insert_eq.
  - intros other Ha Hb.
    by rewrite lookup_delete_ne, !lookup_insert_ne.
Qed.

Lemma timer_names_independent_witness :
  let '(t1, w1) := Timer.start "a" Timer.init Sample.world0 in
  let '(t2, w2) := Timer.start "b" t1 w1 in
  let '(r, t3, w3) := Timer.end_ "a" t2 w2 in
  stdout w3 = ["a finished in 2469.00ms."]
  /\ Timer.items t3 !! "a" = None
  /\ is_Some (Timer.items t3 !! "b").
Proof.
  pose proof (timer_names_independent "a" "b" Timer.init Sample.world0
                ltac:(discriminate)) as H.
  destruct (Timer.start "a" Timer.init Sample.world0) as [t1 w1] eqn:H1.
  destruct (Timer.start "b" t1 w1) as [t2 w2] eqn:H2.
  destruct (Timer.end_ "a" t2 w2) as [[r t3] w3] eqn:H3.
  destruct H as (_ & Hout & Ha & Hb & _).
  split; [rewrite Hout; vm_compute; reflexivity|].
  split; [exact Ha|]. rewrite Hb. by eexists.
Defined.

Lemma run_all_cons (c : Timer.call) (cs : list Timer.call) (self : Timer.t) (w : World) :
  run_all (c :: cs) self w
  = run_all cs (Timer.run c self w).1 (Timer.run c self w).2.
Proof. unfold run_all. cbn. by destruct (Timer.run c self w). Qed.

Lemma timer_run_items (c : Timer.call) (self : Timer.t) (w : World) :
  Timer.items (Timer.run c self w).1
  = match c with
    | Timer.Start n => <[n := clock w (ticks w)]> (Timer.items self)
    | Timer.End n => delete n (Timer.items self)
    end.
Proof.
  destruct c as [n|n]; unfold Timer.run.
  - by rewrite timer_start_eq.
  - destruct (Timer.items self !! n) as [t0|] eqn:Hn.
    + by rewrite (timer_end_eq _ _ _ t0).
    + rewrite timer_end_inactive by done. cbn. by rewrite delete_id.
Qed.

(** X4.  After any sequence of [start] and [end] calls, a name is
    active exactly when the last call made on it was a [start], or no
    call was made on it and it was active before. *)
Theorem timer_active_after_calls (cs : list Timer.call) (name : string)
    (self : Timer.t) (w : World) :
  bool_decide (is_Some (Timer.items (run_all cs self w).1 !! name))
  = active_after name cs (bool_decide (is_Some (Timer.items self !! name))).
Proof.
  revert self w. induction cs as [|c cs IH]; intros self w; [done|].
  rewrite run_all_cons, IH. unfold active_after. cbn [fold_left]. f_equal.
  rewrite timer_run_items. destruct c as [n|n].
  - destruct (String.eqb_spec n name) as [->|Hne].
    + rewrite lookup_insert_eq. by apply bool_decide_eq_true_2.
    + by rewrite lookup_insert_ne.
  - destruct (String.eqb_spec n name) as [->|Hne].
    + rewrite lookup_delete_eq. apply bool_decide_eq_false_2. by intros [? ?].
    + by rewrite lookup_delete_ne.
Qed.

Lemma timer_run_world (c : Timer.call) (self : Timer.t) (w : World) :
  (Timer.run c self w).2
  = match c with
    | Timer.Start n =>
        mkWorld (cuda_available w)
          (if cuda_available w then S (cuda_syncs w) else cuda_syncs w)
          (clock w) (S (ticks w)) (stdout w)
    | Timer.End n =>
        match Timer.items self !! n with
        | Some t0 =>
            mkWorld (cuda_available w) (cuda_syncs w) (clock w) (S (ticks w))
              (stdout w ++ [finished_line self n t0 (clock w (ticks w))])
        | None => w
        end
    end.
Proof.
  destruct c as [n|n]; unfold Timer.run.
  - by rewrite timer_start_eq.
  - destruct (Timer.items self !! n) as [t0|] eqn:Hn.
    + by rewrite (timer_end_eq _ _ _ t0).
    + by rewrite timer_end_inactive.
Qed.

(** X5.  Over any sequence of calls: a line is printed by each [end]
    that finds its name active and by nothing else; the clock is read
    once by each [start] and once by each such [end]; and the device
    barrier runs once per [start] when CUDA is there, never in
    [end]. *)
Theorem timer_calls_account (cs : list Timer.call) (self : Timer.t) (w : World) :
  let w' := (run_all cs self w).2 in
  length (stdout w') = (length (stdout w) + effective_ends cs (dom (Timer.items self)))%nat
  /\ ticks w' = (ticks w + starts cs + effective_ends cs (dom (Timer.items self)))%nat
  /\ cuda_syncs w' = (cuda_syncs w + if cuda_available w then starts cs else 0)%nat
  /\ cuda_available w' = cuda_available w.
Proof.
  revert self w. induction cs as [|c cs IH]; intros self w.
  - cbn. repeat split; try lia. by destruct (cuda_available w); lia.
  - rewrite run_all_cons. cbv zeta.
    destruct (IH (Timer.run c self w).1 (Timer.run c self w).2)
      as (Hout & Hticks & Hsyncs & Hcuda).
    rewrite Hout, Hticks, Hsyncs, Hcuda.
    rewrite timer_run_items, timer_run_world.
    destruct c as [n|n].
    + rewrite dom_insert_L. cbn.
      destruct (cuda_available w); repeat split; lia.
    + rewrite dom_delete_L. cbn [effective_ends starts].
      destruct (Timer.items self !! n) as [t0|] eqn:Hn.
      * rewrite bool_decide_eq_true_2 by (apply elem_of_dom; by eexists).
        cbn. rewrite length_app. cbn.
        destruct (cuda_available w); repeat split; lia.
      * rewrite bool_decide_eq_false_2
          by (rewrite elem_of_dom, Hn; by intros [? ?]).
        destruct (cuda_available w); repeat split; lia.
Qed.

(** ** Statements: trace, world and timer together *)

Section ExecFacts.
Context {Scene Mesh : Type}.

Lemma exec_yields {A : Type} (m : M (Scene:=Scene) (Mesh:=Mesh) A) evs r f :
  exec m evs r f -> yields m evs r.
Proof. intros Hm s. eexists. split; [apply Hm|done]. Qed.

Lemma exec_eq {A : Type} (m : M (Scene:=Scene) (Mesh:=Mesh) A) evs evs' r f f' :
  exec m evs r f -> evs = evs' -> (forall p, f p = f' p) -> exec m evs' r f'.
Proof. intros Hm <- Hf s. by rewrite Hm, Hf. Qed.

Lemma exec_ret {A : Type} (a : A) :
  exec (Scene:=Scene) (Mesh:=Mesh) (ret a) [] (Return a) id.
Proof. intros [w t tr]. unfold ret. cbn. by rewrite app_nil_r. Qed.

Lemma exec_lift {A : Type} (o : outcome A) :
  exec (Scene:=Scene) (Mesh:=Mesh) (lift o) [] o id.
Proof. intros [w t tr]. unfold lift. cbn. by rewrite app_nil_r. Qed.

Lemma exec_emit (ev : Event Scene Mesh) : exec (emit ev) [ev] (Return tt) id.
Proof. by intros [w t tr]. Qed.

Lemma exec_bind {A B : Type} (m : M (Scene:=Scene) (Mesh:=Mesh) A) (k : A -> M B)
    a evs1 evs2 r f g :
  exec m evs1 (Return a) f ->
  exec (k a) evs2 r g ->
  exec (bind m k) (evs1 ++ evs2) r (fun p => g (f p)).
Proof.
  intros Hm Hk s. unfold bind. rewrite Hm, Hk. cbn [world timer trace].
  rewrite app_assoc. by destruct (f (world s, timer s)).
Qed.

Lemma exec_bind_raised {A B : Type} (m : M (Scene:=Scene) (Mesh:=Mesh) A)
    (k : A -> M B) evs exn f :
  exec m evs (Raised exn) f -> exec (bind m k) evs (Raised exn) f.
Proof. intros Hm s. unfold bind. by rewrite Hm. Qed.

Lemma exec_timer_start (name : string) :
  exec (Scene:=Scene) (Mesh:=Mesh) (timer_start name) [] (Return tt) (after_start name).
Proof.
  intros [w t tr]. unfold timer_start, after_start. cbn.
  destruct (Timer.start name t w). cbn. by rewrite app_nil_r.
Qed.

Lemma exec_timer_end (name : string) :
  exec (Scene:=Scene) (Mesh:=Mesh) (timer_end name) [] (Return None) (after_end name).
Proof.
  intros [w t tr]. unfold timer_end, after_end. cbn.
  pose proof (timer_end_result name t w) as Hnone.
  destruct (Timer.end_ name t w) as [[r t'] w']. cbn in *. subst r.
  by rewrite app_nil_r.
Qed.

Lemma exec_print (line : string) :
  exec (Scene:=Scene) (Mesh:=Mesh) (py_print line) [] (Return tt) (after_print line).
Proof. intros [w t tr]. unfold py_print, after_print. cbn. by rewrite app_nil_r. Qed.

Lemma exec_index0 {A : Type} (x : A) (rest : list A) :
  exec (Scene:=Scene) (Mesh:=Mesh) (index0 (x :: rest)) [] (Return x) id.
Proof. apply exec_ret. Qed.

Lemma exec_index0_nil {A : Type} :
  exec (Scene:=Scene) (Mesh:=Mesh) (index0 (@nil A)) [] (Raised "IndexError") id.
Proof. apply exec_lift. Qed.

Lemma exec_for_emit {A : Type} (f : nat -> A -> Event Scene Mesh)
    (start : nat) (l : list A) :
  exec (for_enumerate (fun i x => emit (f i x)) start l)
    (map (fun p => f p.1 p.2) (enumerate start l)) (Return tt) id.
Proof.
  revert start. induction l as [|x rest IH]; intros start.
  - apply exec_ret.
  - rewrite enumerate_cons. cbn [map for_enumerate fst snd].
    eapply exec_eq; [eapply exec_bind; [apply exec_emit | apply IH] | done | done].
Qed.

Lemma after_end_start (name : string) (p : World * Timer.t) :
  after_end name (after_start name p) = after_stage name p.
Proof.
  destruct p as [w self]. unfold after_end, after_start. cbn [fst snd].
  by rewrite timer_start_end_eq.
Qed.

End ExecFacts.

Ltac exec_base :=
  first [ apply exec_ret | apply exec_emit | apply exec_timer_start
        | apply exec_timer_end | apply exec_print | apply exec_index0
        | apply exec_lift | apply exec_for_emit ].

Ltac exec_steps :=
  repeat (cbv beta; first [ exec_base | eapply exec_bind; [exec_base|] ]).

(** ** A whole run *)

Section RunFacts.
Context {Scene Mesh : Type} (libs : Libs Scene Mesh).

Lemma exec_call_remove_background (image : Image) :
  exec (call_remove_background libs image)
    [RemoveBackground image] (Return (remove_background libs image)) id.
Proof.
  eapply exec_eq; [unfold call_remove_background; exec_steps | done | done].
Qed.

Lemma exec_call_resize_foreground (image : Image) (ratio : spec_float) :
  exec (call_resize_foreground libs image ratio)
    [ResizeForeground image ratio] (Return (resize_foreground libs image ratio)) id.
Proof.
  eapply exec_eq; [unfold call_resize_foreground; exec_steps | done | done].
Qed.

Lemma exec_call_model (images : list Image) (dev : string) :
  exec (call_model libs images dev)
    [ModelCall images dev] (Return (model_call libs images dev)) id.
Proof. eapply exec_eq; [unfold call_model; exec_steps | done | done]. Qed.

Lemma exec_call_render (scene_codes : list Scene) (n : nat) (rt : string) :
  exec (call_render libs scene_codes n rt)
    [ModelRender scene_codes n rt] (Return (model_render libs scene_codes n rt)) id.
Proof. eapply exec_eq; [unfold call_render; exec_steps | done | done]. Qed.

Lemma exec_call_extract_mesh (scene_codes : list Scene) (vc : bool) :
  exec (call_extract_mesh libs scene_codes vc)
    [ExtractMesh scene_codes vc] (Return (model_extract_mesh libs scene_codes vc)) id.
Proof. eapply exec_eq; [unfold call_extract_mesh; exec_steps | done | done]. Qed.

Lemma exec_preprocess_cell (cfg : Config) (original_image image : Image) :
  composite (resized libs cfg original_image) = Return image ->
  exec (preprocess_cell libs cfg original_image)
    (preprocess_calls libs cfg original_image ++
     [Makedirs (image_dir cfg);
      ImageSave image (PyStr.os_path_join (image_dir cfg) ["input.png"])])
    (Return [image])
    (after_stage "Processing images").
Proof.
  intros Hcomposite. unfold preprocess_cell.
  eapply exec_eq.
  - eapply exec_bind; [exec_base|].
    eapply exec_bind; [exec_base|].
    eapply exec_bind; [apply exec_call_remove_background|].
    eapply exec_bind; [apply exec_call_resize_foreground|].
    eapply exec_bind.
    { fold (resized libs cfg original_image). rewrite Hcomposite. apply exec_lift. }
    exec_steps.
  - done.
  - intros p. cbn. apply after_end_start.
Qed.

Lemma exec_render_branch (cfg : Config) (i : nat) (scene_codes : list Scene)
    (frames : list Image) (rest : list (list Image)) :
  model_render libs scene_codes 30 "pil" = frames :: rest ->
  exec (render_branch libs cfg i scene_codes)
    (render_trace cfg i scene_codes frames) (Return tt) (after_stage "Rendering").
Proof.
  intros Hrender. unfold render_branch.
  eapply exec_eq.
  - eapply exec_bind; [exec_base|].
    eapply exec_bind; [apply exec_call_render|].
    rewrite Hrender. exec_steps.
  - done.
  - intros p. cbn. apply after_end_start.
Qed.

Lemma exec_render_branch_raises (cfg : Config) (i : nat) (scene_codes : list Scene) :
  model_render libs scene_codes 30 "pil" = [] ->
  exec (render_branch libs cfg i scene_codes)
    [ModelRender scene_codes 30 "pil"] (Raised "IndexError") (after_start "Rendering").
Proof.
  intros Hrender. unfold render_branch.
  eapply exec_eq.
  - eapply exec_bind; [exec_base|].
    eapply exec_bind; [apply exec_call_render|].
    rewrite Hrender. apply exec_bind_raised, exec_index0_nil.
  - done.
  - done.
Qed.

Lemma exec_render_stage (cfg : Config) (i : nat) (scene_codes : list Scene)
    (frames : list Image) :
  (render cfg = true -> head (model_render libs scene_codes 30 "pil") = Some frames) ->
  exec (render_stage libs cfg i scene_codes)
    (if render cfg then render_trace cfg i scene_codes frames else [])
    (Return tt)
    (if render cfg then after_stage "Rendering" else id).
Proof.
  intros Hrender. unfold render_stage. destruct (render cfg).
  - destruct (model_render libs scene_codes 30 "pil") as [|frames' rest] eqn:Hframes;
      [by specialize (Hrender eq_refl)|].
    specialize (Hrender eq_refl). injection Hrender as ->.
    by apply (exec_render_branch _ _ _ _ rest).
  - apply exec_ret.
Qed.

Lemma exec_loop_body (cfg : Config) (n i : nat) (image : Image)
    (frames : list Image) (mesh : Mesh) (others : list Mesh) :
  (render cfg = true ->
   head (model_render libs (model_call libs [image] (device cfg)) 30 "pil")
   = Some frames) ->
  model_extract_mesh libs (model_call libs [image] (device cfg)) false = mesh :: others ->
  exec (loop_body libs cfg n i image)
    (ModelCall [image] (device cfg)
     :: (if render cfg
         then render_trace cfg i (model_call libs [image] (device cfg)) frames
         else [])
     ++ [ExtractMesh (model_call libs [image] (device cfg)) false;
         MeshExport mesh (mesh_path cfg i)])
    (Return tt)
    (fun p =>
       after_stage "Exporting mesh"
         ((if render cfg then after_stage "Rendering" else id)
            (after_stage "Running model"
               (after_print
                  ("Running image " +:+ PyStr.str_nat (i + 1) +:+ "/"
                     +:+ PyStr.str_nat n +:+ " ...") p)))).
Proof.
  intros Hrender Hmeshes. unfold loop_body.
  eapply exec_eq.
  - eapply exec_bind; [exec_base|].
    eapply exec_bind; [exec_base|].
    eapply exec_bind; [apply exec_call_model|].
    eapply exec_bind; [exec_base|].
    eapply exec_bind; [by apply (exec_render_stage _ _ _ frames)|].
    eapply exec_bind; [exec_base|].
    eapply exec_bind; [apply exec_call_extract_mesh|].
    rewrite Hmeshes. exec_steps.
  - cbn. by rewrite ?app_nil_r.
  - intros p. cbn. by rewrite !after_end_start.
Qed.

Lemma exec_pipeline (cfg : Config) (original_image out : Image)
    (frames : list Image) (mesh : Mesh) (others : list Mesh) :
  composite (resized libs cfg original_image) = Return out ->
  (render cfg = true ->
   head (model_render libs (model_call libs [out] (device cfg)) 30 "pil")
   = Some frames) ->
  model_extract_mesh libs (model_call libs [out] (device cfg)) false = mesh :: others ->
  exec (pipeline libs cfg original_image)
    (preprocess_calls libs cfg original_image ++
     [Makedirs (image_dir cfg);
      ImageSave out (PyStr.os_path_join (image_dir cfg) ["input.png"])] ++
     ModelCall [out] (device cfg)
     :: (if render cfg
         then render_trace cfg 0 (model_call libs [out] (device cfg)) frames
         else [])
     ++ [ExtractMesh (model_call libs [out] (device cfg)) false;
         MeshExport mesh (mesh_path cfg 0)])
    (Return tt)
    (after_pipeline cfg).
Proof.
  intros Hcomposite Hrender Hmeshes. unfold pipeline.
  eapply exec_eq.
  - eapply exec_bind; [by apply exec_preprocess_cell|].
    unfold loop_cell. cbn [for_enumerate length].
    eapply exec_bind.
    { eapply exec_bind; [by apply (exec_loop_body _ _ _ _ frames mesh others)|].
      apply exec_ret. }
    apply exec_print.
  - cbn. by rewrite ?app_nil_r, <- ?app_assoc.
  - done.
Qed.

End RunFacts.

Lemma grown_refl (p0 : World * Timer.t) : grown p0 p0 [] 0.
Proof. unfold grown. by rewrite app_nil_r. Qed.

Lemma grown_stage (name : string) (p0 p : World * Timer.t) (lines : list string) (n : nat) :
  grown p0 p lines n ->
  grown p0 (after_stage name p)
    (lines ++ [finished_line p0.2 name (clock p0.1 (n + ticks p0.1)%nat)
                 (clock p0.1 (S (n + ticks p0.1)))])
    (S (S n)).
Proof.
  intros (Hout & Hticks & Hclock & Hscale & Hunit).
  unfold grown, after_stage. cbn [fst snd stdout ticks clock Timer.time_scale Timer.time_unit].
  unfold finished_line. rewrite Hout, Hticks, Hclock, Hscale, Hunit.
  by rewrite app_assoc.
Qed.

Lemma grown_print (line : string) (p0 p : World * Timer.t) (lines : list string) (n : nat) :
  grown p0 p lines n -> grown p0 (after_print line p) (lines ++ [line]) n.
Proof.
  intros (Hout & Hticks & Hclock & Hscale & Hunit).
  unfold grown, after_print, print. cbn [fst snd stdout ticks clock].
  rewrite Hout. by rewrite app_assoc.
Qed.

Lemma grown_start (name : string) (p0 p : World * Timer.t) (lines : list string) (n : nat) :
  grown p0 p lines n -> grown p0 (after_start name p) lines (S n).
Proof.
  intros (Hout & Hticks & Hclock & Hscale & Hunit).
  unfold grown, after_start. rewrite timer_start_eq.
  cbn [fst snd stdout ticks clock Timer.time_scale Timer.time_unit].
  by rewrite Hticks.
Qed.

Lemma after_stage_items (name : string) (p : World * Timer.t) :
  Timer.items (after_stage name p).2 = delete name (Timer.items p.2).
Proof. done. Qed.

Lemma after_print_items (line : string) (p : World * Timer.t) :
  Timer.items (after_print line p).2 = Timer.items p.2.
Proof. done. Qed.

Lemma after_start_active (name : string) (p0 p : World * Timer.t)
    (lines : list string) (n : nat) :
  grown p0 p lines n ->
  Timer.items (after_start name p).2 !! name = Some (clock p0.1 (n + ticks p0.1)%nat).
Proof.
  intros (_ & Hticks & Hclock & _).
  unfold after_start. rewrite timer_start_eq. cbn [fst snd Timer.items].
  by rewrite lookup_insert_eq, Hticks, Hclock.
Qed.

Section RunTheorems.
Context {Scene Mesh : Type} (libs : Libs Scene Mesh).

Lemma pipeline_yields (cfg : Config) (original_image out : Image)
    (frames : list Image) (mesh : Mesh) (others : list Mesh) :
  composite (resized libs cfg original_image) = Return out ->
  (render cfg = true ->
   head (model_render libs (model_call libs [out] (device cfg)) 30 "pil")
   = Some frames) ->
  model_extract_mesh libs (model_call libs [out] (device cfg)) false = mesh :: others ->
  yields (pipeline libs cfg original_image)
    ([NewSession;
      RemoveBackground original_image;
      ResizeForeground (remove_background libs original_image) (foreground_ratio cfg);
      Makedirs (image_dir cfg);
      ImageSave out (PyStr.os_path_join (image_dir cfg) ["input.png"]);
      ModelCall [out] (device cfg)]
     ++ (if render cfg
         then ModelRender (model_call libs [out] (device cfg)) 30 "pil"
              :: map (fun p => ImageSave p.2 (frame_path cfg 0 p.1)) (enumerate 0 frames)
              ++ [SaveVideo frames (video_path cfg 0) 30]
         else [])
     ++ [ExtractMesh (model_call libs [out] (device cfg)) false;
         MeshExport mesh (mesh_path cfg 0)])
    (Return tt).
Proof.
  intros Hcomposite Hrender Hmeshes.
  eapply yields_eq.
  - eapply exec_yields.
    by apply (exec_pipeline libs cfg original_image out frames mesh others).
  - done.
Qed.

(** X6.  A run of preprocessing and the loop in which the model
    answers every request: it ends normally and its calls are, in
    order, the rembg session, [remove_background] on the original
    image, [resize_foreground], the creation of the image directory,
    the save of the composited image as [input.png], one model call on
    the one-element list holding that same image, the render calls if
    the flag is set, one mesh extraction and one export. *)
Theorem pipeline_run_trace (cfg : Config) (original_image out : Image)
    (frames : list Image) (mesh : Mesh) (others : list Mesh) :
  composite (resized libs cfg original_image) = Return out ->
  (render cfg = true ->
   head (model_render libs (model_call libs [out] (device cfg)) 30 "pil")
   = Some frames) ->
  model_extract_mesh libs (model_call libs [out] (device cfg)) false = mesh :: others ->
  yields (pipeline libs cfg original_image)
    ([NewSession;
      RemoveBackground original_image;
      ResizeForeground (remove_background libs original_image) (foreground_ratio cfg);
      Makedirs (image_dir cfg);
      ImageSave out (PyStr.os_path_join (image_dir cfg) ["input.png"]);
      ModelCall [out] (device cfg)]
     ++ (if render cfg
         then ModelRender (model_call libs [out] (device cfg)) 30 "pil"
              :: map (fun p => ImageSave p.2 (frame_path cfg 0 p.1)) (enumerate 0 frames)
              ++ [SaveVideo frames (video_path cfg 0) 30]
         else [])
     ++ [ExtractMesh (model_call libs [out] (device cfg)) false;
         MeshExport mesh (mesh_path cfg 0)])
    (Return tt).
Proof. apply pipeline_yields. Qed.

(** X7.  The same run seen from the console and the timer: six lines
    are printed with the render flag set and five without, in the order
    preprocessing time, "Running image 1/1 ...", model time, render
    time (if rendered), export time, "Processing complete."; each
    time is the difference of the two clock readings taken around its
    stage, the readings being consecutive over the run; and afterwards
    none of the stage names is active, every other entry of the timer
    being as before. *)
Theorem pipeline_run_output (cfg : Config) (original_image out : Image)
    (frames : list Image) (mesh : Mesh) (others : list Mesh)
    (s : State Scene Mesh) :
  composite (resized libs cfg original_image) = Return out ->
  (render cfg = true ->
   head (model_render libs (model_call libs [out] (device cfg)) 30 "pil")
   = Some frames) ->
  model_extract_mesh libs (model_call libs [out] (device cfg)) false = mesh :: others ->
  let c := clock (world s) in
  let k := ticks (world s) in
  let line := finished_line (timer s) in
  exists s',
    pipeline libs cfg original_image s = (s', Return tt)
    /\ stdout (world s') =
         stdout (world s) ++
         [line "Processing images" (c k) (c (1 + k)%nat);
          "Running image 1/1 ...";
          line "Running model" (c (2 + k)%nat) (c (3 + k)%nat)] ++
         (if render cfg
          then [line "Rendering" (c (4 + k)%nat) (c (5 + k)%nat);
                line "Exporting mesh" (c (6 + k)%nat) (c (7 + k)%nat)]
          else [line "Exporting mesh" (c (4 + k)%nat) (c (5 + k)%nat)]) ++
         ["Processing complete."]
    /\ ticks (world s') = ((if render cfg then 8 else 6) + k)%nat
    /\ Timer.items (timer s') =
         delete "Exporting mesh"
           ((if render cfg then delete "Rendering" else id)
              (delete "Running model"
                 (delete "Processing images" (Timer.items (timer s))))).
Proof.
  intros Hcomposite Hrender Hmeshes c k line.
  eexists. split.
  - by apply (exec_pipeline libs cfg original_image out frames mesh others).
  - cbn [world timer]. unfold after_pipeline.
    destruct (render cfg).
    + destruct (grown_print "Processing complete." _ _ _ _
        (grown_stage "Exporting mesh" _ _ _ _
        (grown_stage "Rendering" _ _ _ _
        (grown_stage "Running model" _ _ _ _
        (grown_print "Running image 1/1 ..." _ _ _ _
        (grown_stage "Processing images" _ _ _ _
        (grown_refl (world s, timer s))))))))
        as (Hout & Hticks & _).
      split; [exact Hout|]. split; [exact Hticks|].
      by rewrite after_print_items, !after_stage_items.
    + destruct (grown_print "Processing complete." _ _ _ _
        (grown_stage "Exporting mesh" _ _ _ _
        (grown_stage "Running model" _ _ _ _
        (grown_print "Running image 1/1 ..." _ _ _ _
        (grown_stage "Processing images" _ _ _ _
        (grown_refl (world s, timer s)))))))
        as (Hout & Hticks & _).
      split; [exact Hout|]. split; [exact Hticks|].
      by rewrite after_print_items, !after_stage_items.
Qed.

Lemma exec_pipeline_render_raises (cfg : Config) (original_image out : Image) :
  composite (resized libs cfg original_image) = Return out ->
  render cfg = true ->
  model_render libs (model_call libs [out] (device cfg)) 30 "pil" = [] ->
  exec (pipeline libs cfg original_image)
    (preprocess_calls libs cfg original_image ++
     [Makedirs (image_dir cfg);
      ImageSave out (PyStr.os_path_join (image_dir cfg) ["input.png"]);
      ModelCall [out] (device cfg);
      ModelRender (model_call libs [out] (device cfg)) 30 "pil"])
    (Raised "IndexError")
    (fun p =>
       after_start "Rendering"
         (after_stage "Running model"
            (after_print "Running image 1/1 ..."
               (after_stage "Processing images" p)))).
Proof.
  intros Hcomposite Hflag Hrender. unfold pipeline.
  eapply exec_eq.
  - eapply exec_bind; [by apply exec_preprocess_cell|].
    unfold loop_cell. cbn [for_enumerate length].
    apply exec_bind_raised, exec_bind_raised. unfold loop_body.
    eapply exec_bind; [exec_base|].
    eapply exec_bind; [exec_base|].
    eapply exec_bind; [apply exec_call_model|].
    eapply exec_bind; [exec_base|].
    apply exec_bind_raised. unfold render_stage. rewrite Hflag.
    by apply exec_render_branch_raises.
  - cbn. by rewrite ?app_nil_r, <- ?app_assoc.
  - intros p. cbn. by rewrite !after_end_start.
Qed.

(** X8.  The render flag is set and the renderer returns an empty
    list: the run stops with [IndexError] at [render_images[0]].
    [input.png] has been written and the model and the renderer have
    been called, but no mesh is extracted or exported; the lines for
    preprocessing and the model are printed and "Processing complete."
    is not; and "Rendering" is left active in the timer. *)
Theorem pipeline_render_failure (cfg : Config) (original_image out : Image)
    (s : State Scene Mesh) :
  composite (resized libs cfg original_image) = Return out ->
  render cfg = true ->
  model_render libs (model_call libs [out] (device cfg)) 30 "pil" = [] ->
  exists s',
    pipeline libs cfg original_image s = (s', Raised "IndexError")
    /\ trace s' =
         trace s ++
         [NewSession;
          RemoveBackground original_image;
          ResizeForeground (remove_background libs original_image) (foreground_ratio cfg);
          Makedirs (image_dir cfg);
          ImageSave out (PyStr.os_path_join (image_dir cfg) ["input.png"]);
          ModelCall [out] (device cfg);
          ModelRender (model_call libs [out] (device cfg)) 30 "pil"]
    /\ stdout (world s') =
         stdout (world s) ++
         [finished_line (timer s) "Processing images"
            (clock (world s) (ticks (world s))) (clock (world s) (1 + ticks (world s))%nat);
          "Running image 1/1 ...";
          finished_line (timer s) "Running model"
            (clock (world s) (2 + ticks (world s))%nat)
            (clock (world s) (3 + ticks (world s))%nat)]
    /\ Timer.items (timer s') !! "Rendering"
       = Some (clock (world s) (4 + ticks (world s))%nat).
Proof.
  intros Hcomposite Hflag Hrender.
  eexists. split; [by apply (exec_pipeline_render_raises cfg original_image out)|].
  cbn [trace world timer]. split; [done|].
  pose proof (grown_stage "Running model" _ _ _ _
             (grown_print "Running image 1/1 ..." _ _ _ _
             (grown_stage "Processing images" _ _ _ _
             (grown_refl (world s, timer s))))) as Hgrown.
  split.
  - by destruct (grown_start "Rendering" _ _ _ _ Hgrown) as (-> & _).
  - by rewrite (after_start_active _ _ _ _ _ Hgrown).
Qed.

Lemma exec_pipeline_mesh_raises (cfg : Config) (original_image out : Image)
    (frames : list Image) :
  composite (resized libs cfg original_image) = Return out ->
  (render cfg = true ->
   head (model_render libs (model_call libs [out] (device cfg)) 30 "pil")
   = Some frames) ->
  model_extract_mesh libs (model_call libs [out] (device cfg)) false = [] ->
  exec (pipeline libs cfg original_image)
    (preprocess_calls libs cfg original_image ++
     [Makedirs (image_dir cfg);
      ImageSave out (PyStr.os_path_join (image_dir cfg) ["input.png"])] ++
     ModelCall [out] (device cfg)
     :: (if render cfg
         then render_trace cfg 0 (model_call libs [out] (device cfg)) frames
         else [])
     ++ [ExtractMesh (model_call libs [out] (device cfg)) false])
    (Raised "IndexError")
    (fun p =>
       after_start "Exporting mesh"
         ((if render cfg then after_stage "Rendering" else id)
            (after_stage "Running model"
               (after_print "Running image 1/1 ..."
                  (after_stage "Processing images" p))))).
Proof.
  intros Hcomposite Hrender Hmeshes. unfold pipeline.
  eapply exec_eq.
  - eapply exec_bind; [by apply exec_preprocess_cell|].
    unfold loop_cell. cbn [for_enumerate length].
    apply exec_bind_raised, exec_bind_raised. unfold loop_body.
    eapply exec_bind; [exec_base|].
    eapply exec_bind; [exec_base|].
    eapply exec_bind; [apply exec_call_model|].
    eapply exec_bind; [exec_base|].
    eapply exec_bind; [by apply (exec_render_stage _ _ _ _ frames)|].
    eapply exec_bind; [exec_base|].
    eapply exec_bind; [apply exec_call_extract_mesh|].
    rewrite Hmeshes. apply exec_bind_raised, exec_index0_nil.
  - cbn. by rewrite ?app_nil_r, <- ?app_assoc.
  - intros p. cbn. by rewrite !after_end_start.
Qed.

(** X9.  The model extracts no mesh (an empty list): the run stops
    with [IndexError] at [meshes[0]], after the render files, if any,
    have been written.  The last call is the extraction and nothing is
    exported; the lines printed are those of the stages that ended,
    without "Processing complete."; and "Exporting mesh" is left
    active in the timer. *)
Theorem pipeline_mesh_failure (cfg : Config) (original_image out : Image)
    (frames : list Image) (s : State Scene Mesh) :
  composite (resized libs cfg original_image) = Return out ->
  (render cfg = true ->
   head (model_render libs (model_call libs [out] (device cfg)) 30 "pil")
   = Some frames) ->
  model_extract_mesh libs (model_call libs [out] (device cfg)) false = [] ->
  let c := clock (world s) in
  let k := ticks (world s) in
  let line := finished_line (timer s) in
  exists s',
    pipeline libs cfg original_image s = (s', Raised "IndexError")
    /\ trace s' =
         trace s ++
         [NewSession;
          RemoveBackground original_image;
          ResizeForeground (remove_background libs original_image) (foreground_ratio cfg);
          Makedirs (image_dir cfg);
          ImageSave out (PyStr.os_path_join (image_dir cfg) ["input.png"]);
          ModelCall [out] (device cfg)]
         ++ (if render cfg
             then ModelRender (model_call libs [out] (device cfg)) 30 "pil"
                  :: map (fun p => ImageSave p.2 (frame_path cfg 0 p.1))
                       (enumerate 0 frames)
                  ++ [SaveVideo frames (video_path cfg 0) 30]
             else [])
         ++ [ExtractMesh (model_call libs [out] (device cfg)) false]
    /\ stdout (world s') =
         stdout (world s) ++
         [line "Processing images" (c k) (c (1 + k)%nat);
          "Running image 1/1 ...";
          line "Running model" (c (2 + k)%nat) (c (3 + k)%nat)] ++
         (if render cfg then [line "Rendering" (c (4 + k)%nat) (c (5 + k)%nat)] else [])
    /\ Timer.items (timer s') !! "Exporting mesh"
       = Some (c ((if render cfg then 6 else 4) + k)%nat).
Proof.
  intros Hcomposite Hrender Hmeshes c k line.
  eexists. split; [by apply (exec_pipeline_mesh_raises cfg original_image out frames)|].
  cbn [trace world timer]. split.
  { unfold preprocess_calls, render_trace. cbn [app]. by rewrite <- ?app_assoc. }
  destruct (render cfg).
  - pose proof (grown_stage "Rendering" _ _ _ _
               (grown_stage "Running model" _ _ _ _
               (grown_print "Running image 1/1 ..." _ _ _ _
               (grown_stage "Processing images" _ _ _ _
               (grown_refl (world s, timer s)))))) as Hgrown.
    split.
    + by destruct (grown_start "Exporting mesh" _ _ _ _ Hgrown) as (-> & _).
    + by rewrite (after_start_active _ _ _ _ _ Hgrown).
  - pose proof (grown_stage "Running model" _ _ _ _
               (grown_print "Running image 1/1 ..." _ _ _ _
               (grown_stage "Processing images" _ _ _ _
               (grown_refl (world s, timer s))))) as Hgrown.
    unfold id. split.
    + destruct (grown_start "Exporting mesh" _ _ _ _ Hgrown) as (-> & _).
      by rewrite app_nil_r.
    + by rewrite (after_start_active _ _ _ _ _ Hgrown).
Qed.

End RunTheorems.

Lemma pipeline_run_trace_witness :
  exists evs,
    yields (pipeline Sample.libs notebook_config Sample.rgb_3x2) evs (Return tt)
    /\ length evs = 40%nat
    /\ last evs = Some (MeshExport 0%nat "output/0/mesh.obj").
Proof.
  eexists. split; [|split].
  - apply (pipeline_run_trace Sample.libs notebook_config Sample.rgb_3x2 Stub.rgb_out
             (repeat Sample.rgb_3x2 30) 0%nat []).
    + vm_compute. reflexivity.
    + intros _. reflexivity.
    + reflexivity.
  - reflexivity.
  - reflexivity.
Defined.

Lemma pipeline_run_output_witness :
  exists s',
    pipeline Sample.libs notebook_config Sample.rgb_3x2 Sample.state0 = (s', Return tt)
    /\ stdout (world s')
       = ["Processing images finished in 1234.50ms."; "Running image 1/1 ...";
          "Running model finished in 1234.50ms."; "Rendering finished in 1234.50ms.";
          "Exporting mesh finished in 1234.50ms."; "Processing complete."]
    /\ Timer.items (timer s') = ∅.
Proof.
  destruct (pipeline_run_output Sample.libs notebook_config Sample.rgb_3x2 Stub.rgb_out
              (repeat Sample.rgb_3x2 30) 0%nat [] Sample.state0)
    as (s' & Hrun & Hout & _ & Hitems).
  - vm_compute. reflexivity.
  - intros _. reflexivity.
  - reflexivity.
  - exists s'. split; [exact Hrun|]. split.
    + rewrite Hout. vm_compute. reflexivity.
    + rewrite Hitems. vm_compute. reflexivity.
Defined.

Lemma pipeline_render_failure_witness :
  exists s',
    pipeline Stub.no_render notebook_config Sample.rgb_3x2 Sample.state0
    = (s', Raised "IndexError")
    /\ length (trace s') = 7%nat
    /\ is_Some (Timer.items (timer s') !! "Rendering").
Proof.
  destruct (pipeline_render_failure Stub.no_render notebook_config Sample.rgb_3x2
              Stub.rgb_out Sample.state0)
    as (s' & Hrun & Htrace & _ & Hactive).
  - vm_compute. reflexivity.
  - reflexivity.
  - reflexivity.
  - exists s'. split; [exact Hrun|]. split.
    + by rewrite Htrace.
    + rewrite Hactive. by eexists.
Defined.

Lemma pipeline_mesh_failure_witness :
  exists s',
    pipeline Stub.no_mesh notebook_config Sample.rgb_3x2 Sample.state0
    = (s', Raised "IndexError")
    /\ is_Some (Timer.items (timer s') !! "Exporting mesh").
Proof.
  destruct (pipeline_mesh_failure Stub.no_mesh notebook_config Sample.rgb_3x2
              Stub.rgb_out (repeat Sample.rgb_3x2 30) Sample.state0)
    as (s' & Hrun & _ & _ & Hactive).
  - vm_compute. reflexivity.
  - intros _. reflexivity.
  - reflexivity.
  - exists s'. split; [exact Hrun|]. rewrite Hactive. by eexists.
Defined.

(** ** Uploads and image modes *)

Section UploadFacts.
Context {Scene Mesh : Type} (libs : Libs Scene Mesh).

(** X10.  With no uploaded file the notebook stops with [IndexError]
    at [list(uploaded.keys())[0]] before anything is saved, called or
    printed; with several, only the first is ever looked at. *)
Theorem notebook_first_upload_only (cfg : Config) :
  (forall s, notebook libs cfg [] s = (s, Raised "IndexError"))
  /\ (forall image rest, notebook libs cfg (image :: rest) = notebook libs cfg [image]).
Proof. by split. Qed.

Lemma composite_other_mode (image : Image) :
  mode image <> "RGBA" -> composite image = Return image.
Proof.
  intros Hmode. unfold composite.
  by destruct (String.eqb_spec (mode image) "RGBA").
Qed.

(** X11.  An image that comes out of foreground resizing with one of
    the modes 1, L, LA, I, I;16, P or RGB, which PIL can write as PNG,
    is not composited: the very same image, every band included (the
    alpha band of an LA image too), is saved as [input.png] and put in
    [images]. *)
Theorem preprocess_passes_other_modes (cfg : Config) (original_image : Image) :
  In (mode (resized libs cfg original_image)) png_modes ->
  yields (preprocess_cell libs cfg original_image)
    ([NewSession;
      RemoveBackground original_image;
      ResizeForeground (remove_background libs original_image) (foreground_ratio cfg);
      Makedirs (image_dir cfg);
      ImageSave (resized libs cfg original_image)
        (PyStr.os_path_join (image_dir cfg) ["input.png"])])
    (Return [resized libs cfg original_image]).
Proof.
  intros Hmode.
  apply (preprocess_cell_yields libs cfg original_image), composite_other_mode.
  intros Hrgba. rewrite Hrgba in Hmode. cbn [In png_modes] in Hmode.
  by repeat destruct Hmode as [Hmode|Hmode].
Qed.

End UploadFacts.

Lemma preprocess_passes_other_modes_witness :
  mode (resized Stub.plain notebook_config Stub.la_1x1) = "LA"
  /\ yields (preprocess_cell Stub.plain notebook_config Stub.la_1x1)
       [NewSession;
        RemoveBackground Stub.la_1x1;
        ResizeForeground Stub.la_1x1 (foreground_ratio notebook_config);
        Makedirs "output/0";
        ImageSave Stub.la_1x1 "output/0/input.png"]
       (Return [Stub.la_1x1]).
Proof.
  split; [reflexivity|].
  apply (preprocess_passes_other_modes Stub.plain notebook_config Stub.la_1x1).
  vm_compute. right. right. left. reflexivity.
Defined.

(** ** Opaque and transparent pixels *)

Lemma blend_rgba_opaque (px : list Z) :
  length px = 4%nat -> Forall (fun v => 0 <= v <= 255) px -> px !! 3%nat = Some 255 ->
  blend_rgba px = take 3 px.
Proof.
  intros Hlen Hbytes Halpha.
  destruct px as [|r [|g [|b [|a [|? ?]]]]]; try discriminate.
  injection Halpha as ->.
  apply Forall_cons in Hbytes as [Hr Hbytes].
  apply Forall_cons in Hbytes as [Hg Hbytes].
  apply Forall_cons in Hbytes as [Hb _].
  unfold blend_rgba. cbn [take].
  destruct (blend_channel_ends r Hr) as [-> _].
  destruct (blend_channel_ends g Hg) as [-> _].
  by destruct (blend_channel_ends b Hb) as [-> _].
Qed.

Lemma blend_rgba_clear (px : list Z) :
  length px = 4%nat -> Forall (fun v => 0 <= v <= 255) px -> px !! 3%nat = Some 0 ->
  blend_rgba px = [127; 127; 127].
Proof.
  intros Hlen Hbytes Halpha.
  destruct px as [|r [|g [|b [|a [|? ?]]]]]; try discriminate.
  injection Halpha as ->.
  apply Forall_cons in Hbytes as [Hr Hbytes].
  apply Forall_cons in Hbytes as [Hg Hbytes].
  apply Forall_cons in Hbytes as [Hb _].
  unfold blend_rgba.
  destruct (blend_channel_ends r Hr) as [_ ->].
  destruct (blend_channel_ends g Hg) as [_ ->].
  by destruct (blend_channel_ends b Hb) as [_ ->].
Qed.

Lemma map_pixels_ext (f g : list Z -> list Z) (a : Z) (arr : list (list (list Z))) :
  (forall px, length px = 4%nat -> Forall (fun v => 0 <= v <= 255) px ->
              px !! 3%nat = Some a -> f px = g px) ->
  has_bands 4 arr -> all_bytes arr -> alpha_is a arr ->
  map (map f) arr = map (map g) arr.
Proof.
  intros Hfg [_ Hbands] Hbytes Halpha.
  unfold all_bytes, alpha_is in *.
  apply map_ext_Forall.
  rewrite Forall_forall in Hbands, Hbytes, Halpha.
  apply Forall_forall. intros row Hrow.
  destruct (Hbands row Hrow) as [_ Hlens].
  specialize (Hbytes row Hrow). specialize (Halpha row Hrow).
  apply map_ext_Forall.
  rewrite Forall_forall in Hlens, Hbytes, Halpha.
  apply Forall_forall. intros px Hpx.
  apply Hfg; auto.
Qed.

(** X12.  Compositing an RGBA image whose pixels are all opaque
    (alpha 255) changes no colour: the result is the RGB image with
    the first three bands of every pixel, byte for byte. *)
Theorem composite_opaque (image : Image) :
  mode image = "RGBA" ->
  has_bands 4 (pixels image) ->
  all_bytes (pixels image) ->
  alpha_is 255 (pixels image) ->
  composite image
  = Return (mkImage "RGB"
              (length (hd [] (pixels image)), length (pixels image))
              (map (map (take 3)) (pixels image))).
Proof.
  intros Hmode Hbands Hbytes Halpha.
  rewrite composite_rgba by done. do 2 f_equal.
  by apply (map_pixels_ext _ _ 255); [apply blend_rgba_opaque|..].
Qed.

(** X13.  Compositing an RGBA image whose pixels are all transparent
    (alpha 0) gives the gray [127, 127, 127] everywhere, whatever the
    colour bands held: the gray 0.5 is cut down to 127, not rounded up
    to 128. *)
Theorem composite_transparent (image : Image) :
  mode image = "RGBA" ->
  has_bands 4 (pixels image) ->
  all_bytes (pixels image) ->
  alpha_is 0 (pixels image) ->
  composite image
  = Return (mkImage "RGB"
              (length (hd [] (pixels image)), length (pixels image))
              (map (map (fun _ => [127; 127; 127])) (pixels image))).
Proof.
  intros Hmode Hbands Hbytes Halpha.
  rewrite composite_rgba by done. do 2 f_equal.
  by apply (map_pixels_ext _ _ 0); [apply blend_rgba_clear|..].
Qed.

Ltac sample_pixels :=
  repeat first
    [ done | lia | split
    | apply Forall_nil_2 | apply Forall_cons_2 ].

Lemma composite_opaque_witness :
  composite Stub.opaque_2x1
  = Return (mkImage "RGB" (2%nat, 1%nat) [[[200; 100; 50]; [1; 2; 3]]]).
Proof.
  apply (composite_opaque Stub.opaque_2x1); [reflexivity|unfold has_bands, all_bytes, alpha_is; cbn..];
    sample_pixels.
Defined.

Lemma composite_transparent_witness :
  composite Stub.clear_2x1
  = Return (mkImage "RGB" (2%nat, 1%nat) [[[127; 127; 127]; [127; 127; 127]]]).
Proof.
  apply (composite_transparent Stub.clear_2x1); [reflexivity|unfold has_bands, all_bytes, alpha_is; cbn..];
    sample_pixels.
Defined.

(** ** File names *)

Lemma string_length_append (s t : string) :
  String.length (s +:+ t) = (String.length s + String.length t)%nat.
Proof.
  induction s as [|c s IH]; [done|].
  change (String c s +:+ t) with (String c (s +:+ t)). cbn. by rewrite IH.
Qed.

Lemma string_append_assoc (s t u : string) : (s +:+ t) +:+ u = s +:+ t +:+ u.
Proof.
  induction s as [|c s IH]; [done|].
  change ((String c s +:+ t) +:+ u) with (String c ((s +:+ t) +:+ u)).
  by rewrite IH.
Qed.

Lemma string_append_cancel_r (s1 s2 t : string) : s1 +:+ t = s2 +:+ t -> s1 = s2.
Proof.
  revert s2. induction s1 as [|c1 s1 IH]; intros [|c2 s2] Heq; [done|..].
  - apply (f_equal String.length) in Heq.
    change (String c2 s2 +:+ t) with (String c2 (s2 +:+ t)) in Heq.
    cbn in Heq. rewrite !string_length_append in Heq. cbn in Heq. lia.
  - apply (f_equal String.length) in Heq.
    change (String c1 s1 +:+ t) with (String c1 (s1 +:+ t)) in Heq.
    cbn in Heq. rewrite !string_length_append in Heq. cbn in Heq. lia.
  - change (String c1 (s1 +:+ t) = String c2 (s2 +:+ t)) in Heq.
    injection Heq as -> Heq. f_equal. by apply IH.
Qed.

(** Reading a decimal numeral back. *)
Lemma read_str_nat (n : nat) :
  Nat.of_uint <$> NilEmpty.uint_of_string (PyStr.str_nat n) = Some n.
Proof.
  unfold PyStr.str_nat, NilZero.string_of_uint.
  pose proof (DecimalNat.Unsigned.of_to n) as Hn.
  destruct (Nat.to_uint n) eqn:Hd; [by rewrite <- Hn|..];
    rewrite NilEmpty.usu; cbn [fmap option_fmap option_map]; by rewrite Hn.
Qed.

Lemma read_leading_zeros (k : nat) (s : string) :
  Nat.of_uint <$> NilEmpty.uint_of_string (PyStr.zeros k +:+ s)
  = Nat.of_uint <$> NilEmpty.uint_of_string s.
Proof.
  induction k as [|k IH]; [done|].
  change (PyStr.zeros (S k) +:+ s) with (String "0" (PyStr.zeros k +:+ s)).
  cbn [NilEmpty.uint_of_string]. rewrite <- IH.
  by destruct (NilEmpty.uint_of_string (PyStr.zeros k +:+ s)).
Qed.

Lemma format_03d_inj (r1 r2 : nat) :
  PyStr.format_03d r1 = PyStr.format_03d r2 -> r1 = r2.
Proof.
  intros Heq.
  apply (f_equal (fun s => Nat.of_uint <$> NilEmpty.uint_of_string s)) in Heq.
  unfold PyStr.format_03d in Heq. cbv zeta in Heq.
  rewrite !read_leading_zeros, !read_str_nat in Heq. by injection Heq.
Qed.

Lemma NoDup_map_inj {A B : Type} (f : A -> B) (l : list A) :
  (forall x y, f x = f y -> x = y) -> NoDup l -> NoDup (map f l).
Proof.
  intros Hinj. induction 1 as [|x l Hx Hl IH]; cbn; constructor; [|done].
  rewrite list_elem_of_In, in_map_iff. intros (y & Heq & Hy).
  apply Hinj in Heq as <-. by apply Hx, list_elem_of_In.
Qed.

Lemma join2_inj (path b1 b2 : string) :
  PyStr.startswith_sep b1 = false -> PyStr.startswith_sep b2 = false ->
  PyStr.join2 path b1 = PyStr.join2 path b2 -> b1 = b2.
Proof.
  intros H1 H2. unfold PyStr.join2. rewrite H1, H2.
  destruct (String.eqb path "" || PyStr.endswith_sep path); intros Heq.
  - by apply String.app_inj in Heq.
  - by do 2 apply String.app_inj in Heq.
Qed.

Lemma frame_path_inj (cfg : Config) (i r1 r2 : nat) :
  frame_path cfg i r1 = frame_path cfg i r2 -> r1 = r2.
Proof.
  unfold frame_path, PyStr.os_path_join. cbn [fold_left]. intros Heq.
  apply join2_inj in Heq; [|done..].
  apply String.app_inj, string_append_cancel_r in Heq.
  by apply format_03d_inj.
Qed.

(** X14.  However many frames a render has, no two of them are saved
    under the same name: [f"{ri:03d}"] reads back as [ri], also past
    999 where it grows to four digits and more. *)
Theorem frame_files_distinct (cfg : Config) (i n : nat) :
  NoDup (map (frame_path cfg i) (seq 0 n))
  /\ (forall ri,
        Nat.of_uint <$> NilEmpty.uint_of_string (PyStr.format_03d ri) = Some ri)
  /\ PyStr.format_03d 1234 = "1234".
Proof.
  split; [|split; [|done]].
  - apply NoDup_map_inj; [|apply NoDup_seq].
    intros r1 r2. apply frame_path_inj.
  - intros ri. unfold PyStr.format_03d. cbv zeta.
    by rewrite read_leading_zeros, read_str_nat.
Qed.

Lemma join2_trailing_sep (d b : string) :
  d <> "" -> PyStr.endswith_sep d = false ->
  PyStr.join2 (d +:+ "/") b = PyStr.join2 d b.
Proof.
  intros Hne Hend. unfold PyStr.join2.
  destruct (PyStr.startswith_sep b); [done|].
  rewrite append_not_empty, endswith_sep_append by done.
  change (PyStr.endswith_sep "/") with true. rewrite Hend.
  destruct (String.eqb_spec d ""); [done|]. cbn.
  apply string_append_assoc.
Qed.

Lemma os_path_join_trailing_sep (d b : string) (rest : list string) :
  d <> "" -> PyStr.endswith_sep d = false ->
  PyStr.os_path_join (d +:+ "/") (b :: rest) = PyStr.os_path_join d (b :: rest).
Proof.
  intros Hne Hend. unfold PyStr.os_path_join. cbn [fold_left].
  by rewrite join2_trailing_sep.
Qed.

(** X15.  Whether [output_dir] is written with a trailing slash or
    without one makes no difference to where anything goes: the image
    directory and the frame, video and mesh paths are the same. *)
Theorem output_dir_trailing_slash (cfg : Config) (d : string) :
  d <> "" -> PyStr.endswith_sep d = false ->
  image_dir (with_output_dir (d +:+ "/") cfg) = image_dir (with_output_dir d cfg)
  /\ (forall i ri,
        frame_path (with_output_dir (d +:+ "/") cfg) i ri
        = frame_path (with_output_dir d cfg) i ri)
  /\ (forall i,
        video_path (with_output_dir (d +:+ "/") cfg) i
        = video_path (with_output_dir d cfg) i)
  /\ (forall i,
        mesh_path (with_output_dir (d +:+ "/") cfg) i
        = mesh_path (with_output_dir d cfg) i).
Proof.
  intros Hne Hend.
  unfold image_dir, frame_path, video_path, mesh_path. cbn [output_dir with_output_dir
    model_save_format].
  repeat split; intros; by apply os_path_join_trailing_sep.
Qed.

Lemma output_dir_trailing_slash_witness :
  image_dir (with_output_dir "output/" notebook_config)
  = image_dir (with_output_dir "output" notebook_config)
  /\ mesh_path (with_output_dir "output" notebook_config) 0 = "output/0/mesh.obj".
Proof.
  split; [|reflexivity].
  apply (output_dir_trailing_slash notebook_config "output"); [discriminate|reflexivity].
Defined.

Lemma frame_saves_files {Scene Mesh : Type} (cfg : Config) (i start : nat)
    (frames : list Image) :
  omap (file_written (Scene:=Scene) (Mesh:=Mesh))
    (map (fun p => ImageSave p.2 (frame_path cfg i p.1)) (enumerate start frames))
  = map (frame_path cfg i) (seq start (length frames)).
Proof.
  revert start. induction frames as [|frame frames IH]; intros start; [done|].
  rewrite enumerate_cons. cbn. by rewrite <- IH.
Qed.

Lemma omap_cons_none {A B : Type} (f : A -> option B) (x : A) (l : list A) :
  f x = None -> omap f (x :: l) = omap f l.
Proof. intros Hx. cbn. by rewrite Hx. Qed.

Lemma run_names_distinct (fmt : string) (n : nat) :
  NoDup ("input.png"
         :: (map (fun ri => "render_" +:+ PyStr.format_03d ri +:+ ".png") (seq 0 n)
             ++ ["render.mp4"])
         ++ ["mesh." +:+ fmt]).
Proof.
  constructor.
  - rewrite list_elem_of_In, !in_app_iff, in_map_iff. cbn [In].
    intros [[(ri & Heq & _)|[Heq|[]]]|[Heq|[]]];
      cbv [String.append] in Heq; discriminate.
  - apply NoDup_app. split; [|split].
    + apply NoDup_app. split; [|split].
      * apply NoDup_map_inj; [|apply NoDup_seq].
        intros r1 r2 Heq.
        apply String.app_inj, string_append_cancel_r in Heq.
        by apply format_03d_inj.
      * intros name Hin Hvideo.
        rewrite list_elem_of_In, in_map_iff in Hin. destruct Hin as (ri & <- & _).
        apply list_elem_of_In in Hvideo. cbn [In] in Hvideo.
        destruct Hvideo as [Heq|[]]. cbv [String.append] in Heq. discriminate.
      * apply NoDup_singleton.
    + intros name Hin Hmesh.
      apply list_elem_of_In in Hmesh. cbn [In] in Hmesh. destruct Hmesh as [<-|[]].
      rewrite list_elem_of_In, in_app_iff, in_map_iff in Hin. cbn [In] in Hin.
      destruct Hin as [(ri & Heq & _)|[Heq|[]]];
        cbv [String.append] in Heq; discriminate.
    + apply NoDup_singleton.
Qed.

Section FilesFacts.
Context {Scene Mesh : Type} (libs : Libs Scene Mesh).

(** X16.  In a run that does not raise, the files written are, in
    order, [input.png], the frames and the video if the render flag is
    set, and the mesh; and they are pairwise different paths, so no
    file of a run overwrites another. *)
Theorem pipeline_files_distinct (cfg : Config) (original_image out : Image)
    (frames : list Image) (mesh : Mesh) (others : list Mesh) :
  composite (resized libs cfg original_image) = Return out ->
  (render cfg = true ->
   head (model_render libs (model_call libs [out] (device cfg)) 30 "pil")
   = Some frames) ->
  model_extract_mesh libs (model_call libs [out] (device cfg)) false = mesh :: others ->
  exists evs,
    yields (pipeline libs cfg original_image) evs (Return tt)
    /\ omap file_written evs
       = PyStr.os_path_join (image_dir cfg) ["input.png"]
         :: (if render cfg
             then map (frame_path cfg 0) (seq 0 (length frames)) ++ [video_path cfg 0]
             else [])
         ++ [mesh_path cfg 0]
    /\ NoDup (omap file_written evs).
Proof.
  intros Hcomposite Hrender Hmeshes.
  eexists. split; [by apply (pipeline_yields libs cfg original_image out frames mesh others)|].
  assert (Hfiles :
    omap file_written
      ([NewSession; RemoveBackground original_image;
        ResizeForeground (remove_background libs original_image) (foreground_ratio cfg);
        Makedirs (image_dir cfg);
        ImageSave out (PyStr.os_path_join (image_dir cfg) ["input.png"]);
        ModelCall [out] (device cfg)]
       ++ (if render cfg
           then ModelRender (model_call libs [out] (device cfg)) 30 "pil"
                :: map (fun p => ImageSave p.2 (frame_path cfg 0 p.1)) (enumerate 0 frames)
                ++ [SaveVideo frames (video_path cfg 0) 30]
           else [])
       ++ [ExtractMesh (model_call libs [out] (device cfg)) false;
           MeshExport (Scene:=Scene) mesh (mesh_path cfg 0)])
    = PyStr.os_path_join (image_dir cfg) ["input.png"]
      :: (if render cfg
          then map (frame_path cfg 0) (seq 0 (length frames)) ++ [video_path cfg 0]
          else [])
      ++ [mesh_path cfg 0]).
  { rewrite !omap_app. destruct (render cfg); [|done].
    rewrite (omap_cons_none file_written (ModelRender _ _ _)) by done.
    by rewrite omap_app, frame_saves_files. }
  split; [exact Hfiles|]. rewrite Hfiles.
  assert (Hinj : forall n1 n2 : string,
            image_dir cfg +:+ "/" +:+ n1 = image_dir cfg +:+ "/" +:+ n2 -> n1 = n2).
  { intros n1 n2 Heq. by do 2 apply String.app_inj in Heq. }
  rewrite input_png_path.
  destruct (render cfg).
  - pose proof (NoDup_map_inj _ _ Hinj
                  (run_names_distinct (model_save_format cfg) (length frames))) as Hnames.
    cbn [map] in Hnames. rewrite !map_app, map_map in Hnames. cbn [map] in Hnames.
    erewrite (map_ext (frame_path cfg 0)).
    2:{ intros ri. unfold frame_path. change (PyStr.str_nat 0) with "0".
        by rewrite join_below_zero. }
    unfold video_path, mesh_path. change (PyStr.str_nat 0) with "0".
    rewrite !join_below_zero by done. exact Hnames.
  - cbn [app]. constructor; [|apply NoDup_singleton].
    rewrite list_elem_of_In. cbn [In]. intros [Heq|[]].
    unfold mesh_path in Heq. change (PyStr.str_nat 0) with "0" in Heq.
    rewrite join_below_zero in Heq by done.
    apply (Hinj ("mesh." +:+ model_save_format cfg) "input.png") in Heq.
    cbv [String.append] in Heq. discriminate.
Qed.

End FilesFacts.

Lemma pipeline_files_distinct_witness :
  exists evs,
    yields (pipeline Sample.libs notebook_config Sample.rgb_3x2) evs (Return tt)
    /\ length (omap file_written evs) = 33%nat
    /\ NoDup (omap file_written evs).
Proof.
  destruct (pipeline_files_distinct Sample.libs notebook_config Sample.rgb_3x2
              Stub.rgb_out (repeat Sample.rgb_3x2 30) 0%nat [])
    as (evs & Hyields & Hfiles & Hnodup).
  - vm_compute. reflexivity.
  - intros _. reflexivity.
  - reflexivity.
  - exists evs. split; [exact Hyields|]. split; [|exact Hnodup].
    rewrite Hfiles. reflexivity.
Defined.


(** ** Directories by index *)

Lemma numeral_no_sep (s : string) (d : Decimal.uint) :
  NilEmpty.uint_of_string s = Some d ->
  PyStr.startswith_sep s = false /\ PyStr.endswith_sep s = false.
Proof.
  revert d. induction s as [|c s IH]; intros d Hread; [done|].
  cbn [NilEmpty.uint_of_string] in Hread.
  destruct (NilEmpty.uint_of_string s) as [d'|] eqn:Hs; [|done].
  destruct (Ascii.eqb_spec c "/") as [->|Hne]; [done|].
  assert (Hc : Ascii.eqb c "/" = false) by (by apply Ascii.eqb_neq).
  split; [exact Hc|].
  destruct s as [|c' s']; [exact Hc|].
  by destruct (IH d' eq_refl) as [_ Hend].
Qed.

Lemma str_nat_shape (i : nat) :
  PyStr.str_nat i <> ""
  /\ PyStr.startswith_sep (PyStr.str_nat i) = false
  /\ PyStr.endswith_sep (PyStr.str_nat i) = false.
Proof.
  split.
  - unfold PyStr.str_nat, NilZero.string_of_uint. by destruct (Nat.to_uint i).
  - pose proof (read_str_nat i) as Hread.
    destruct (NilEmpty.uint_of_string (PyStr.str_nat i)) as [d|] eqn:Hd; [|done].
    by apply (numeral_no_sep _ d).
Qed.

Lemma index_dir_join (cfg : Config) (i : nat) :
  PyStr.os_path_join (output_dir cfg) [PyStr.str_nat i] = index_dir cfg i.
Proof.
  destruct (str_nat_shape i) as (_ & Hstart & _).
  unfold index_dir, PyStr.os_path_join. cbn [fold_left].
  unfold PyStr.join2. by rewrite Hstart.
Qed.

Lemma index_dir_open (cfg : Config) (i : nat) :
  String.eqb (index_dir cfg i) "" = false /\ PyStr.endswith_sep (index_dir cfg i) = false.
Proof.
  destruct (str_nat_shape i) as (Hne & _ & Hend).
  unfold index_dir.
  destruct (String.eqb (output_dir cfg) "" || PyStr.endswith_sep (output_dir cfg)).
  - by rewrite append_not_empty, endswith_sep_append.
  - rewrite append_not_empty by done. rewrite endswith_sep_append by done.
    split; [done|].
    change ("/" +:+ PyStr.str_nat i) with (String "/" (PyStr.str_nat i)).
    by destruct (PyStr.str_nat i).
Qed.

Lemma join_below_index (cfg : Config) (i : nat) (name : string) :
  PyStr.startswith_sep name = false ->
  PyStr.os_path_join (output_dir cfg) [PyStr.str_nat i; name]
  = index_dir cfg i +:+ "/" +:+ name.
Proof.
  intros Hname.
  destruct (index_dir_open cfg i) as [Hne Hend].
  change (PyStr.os_path_join (output_dir cfg) [PyStr.str_nat i; name])
    with (PyStr.join2 (PyStr.os_path_join (output_dir cfg) [PyStr.str_nat i]) name).
  rewrite index_dir_join. unfold PyStr.join2. by rewrite Hname, Hne, Hend.
Qed.

Lemma frame_path_explicit (cfg : Config) (i ri : nat) :
  frame_path cfg i ri
  = index_dir cfg i +:+ "/render_" +:+ PyStr.format_03d ri +:+ ".png".
Proof. unfold frame_path. by rewrite join_below_index. Qed.

Lemma video_path_explicit (cfg : Config) (i : nat) :
  video_path cfg i = index_dir cfg i +:+ "/render.mp4".
Proof. unfold video_path. by rewrite join_below_index. Qed.

Lemma mesh_path_explicit (cfg : Config) (i : nat) :
  mesh_path cfg i = index_dir cfg i +:+ "/mesh." +:+ model_save_format cfg.
Proof. unfold mesh_path. by rewrite join_below_index. Qed.

(** ** The render stage, with its file names *)

Section RenderNames.
Context {Scene Mesh : Type} (libs : Libs Scene Mesh).

(** C5.  With the render flag set and a renderer that answers the
    request, the render stage makes one render call, for 30 views;
    saves the frames of the first scene in order, the frame at index
    [ri] to [<output_dir>/<i>/render_<ri as 03d>.png], the indices
    counting up from 0; and then hands the same frames, in the same
    order, to one [save_video] call for [<output_dir>/<i>/render.mp4]
    at 30 frames per second.  The directory is [output_dir], a
    separator unless [output_dir] is empty or ends in one, and [str(i)].
    The digits written for [ri] read back as [ri], and there are three
    of them for every index below 1000. *)
Theorem render_stage_frames_then_video (cfg : Config) (i : nat)
    (scene_codes : list Scene) (frames : list Image) (rest : list (list Image)) :
  render cfg = true ->
  model_render libs scene_codes 30 "pil" = frames :: rest ->
  let dir :=
    if (String.eqb (output_dir cfg) "" || PyStr.endswith_sep (output_dir cfg))%bool
    then output_dir cfg +:+ PyStr.str_nat i
    else output_dir cfg +:+ "/" +:+ PyStr.str_nat i in
  yields (render_stage libs cfg i scene_codes)
    (ModelRender scene_codes 30 "pil"
     :: map (fun p => ImageSave p.2 (frame_path cfg i p.1)) (enumerate 0 frames)
     ++ [SaveVideo frames (video_path cfg i) 30])
    (Return tt)
  /\ yields (render_stage libs cfg i scene_codes)
       (ModelRender scene_codes 30 "pil"
        :: map (fun p => ImageSave p.2
                           (dir +:+ "/render_" +:+ PyStr.format_03d p.1 +:+ ".png"))
             (enumerate 0 frames)
        ++ [SaveVideo frames (dir +:+ "/render.mp4") 30])
       (Return tt)
  /\ map fst (enumerate 0 frames) = seq 0 (length frames)
  /\ map snd (enumerate 0 frames) = frames
  /\ (forall ri, frame_path cfg i ri =
        PyStr.os_path_join (output_dir cfg)
          [PyStr.str_nat i; "render_" +:+ PyStr.format_03d ri +:+ ".png"])
  /\ (forall ri, frame_path cfg i ri
                 = dir +:+ "/render_" +:+ PyStr.format_03d ri +:+ ".png")
  /\ video_path cfg i = dir +:+ "/render.mp4"
  /\ (forall ri,
        Nat.of_uint <$> NilEmpty.uint_of_string (PyStr.format_03d ri) = Some ri)
  /\ (forall ri, (ri < 1000)%nat -> String.length (PyStr.format_03d ri) = 3%nat)
  /\ PyStr.format_03d 0 = "000" /\ PyStr.format_03d 29 = "029".
Proof.
  intros Hflag Hrender dir.
  assert (Hyields :
    yields (render_stage libs cfg i scene_codes)
      (ModelRender scene_codes 30 "pil"
       :: map (fun p => ImageSave p.2 (frame_path cfg i p.1)) (enumerate 0 frames)
       ++ [SaveVideo frames (video_path cfg i) 30])
      (Return tt)).
  { unfold render_stage. rewrite Hflag.
    by apply (render_branch_yields libs cfg i scene_codes frames rest). }
  split; [exact Hyields|]. split.
  { eapply yields_eq; [exact Hyields|].
    rewrite video_path_explicit. f_equal. f_equal.
    apply map_ext. intros [ri frame]. cbn [fst snd]. by rewrite frame_path_explicit. }
  split; [apply enumerate_fst|]. split; [apply enumerate_snd|].
  split; [done|]. split; [apply frame_path_explicit|].
  split; [apply video_path_explicit|].
  split.
  { intros ri. unfold PyStr.format_03d. cbv zeta.
    by rewrite read_leading_zeros, read_str_nat. }
  split; [apply format_03d_width|]. by split.
Qed.

End RenderNames.

Lemma render_stage_frames_then_video_witness :
  render notebook_config = true
  /\ model_render Sample.libs [0%nat] 30 "pil" = [repeat Sample.rgb_3x2 30]
  /\ yields (render_stage Sample.libs notebook_config 0 [0%nat])
       (ModelRender [0%nat] 30 "pil"
        :: map (ImageSave Sample.rgb_3x2)
             ["output/0/render_000.png";
        "output/0/render_001.png";
        "output/0/render_002.png";
        "output/0/render_003.png";
        "output/0/render_004.png";
        "output/0/render_005.png";
        "output/0/render_006.png";
        "output/0/render_007.png";
        "output/0/render_008.png";
        "output/0/render_009.png";
        "output/0/render_010.png";
        "output/0/render_011.png";
        "output/0/render_012.png";
        "output/0/render_013.png";
        "output/0/render_014.png";
        "output/0/render_015.png";
        "output/0/render_016.png";
        "output/0/render_017.png";
        "output/0/render_018.png";
        "output/0/render_019.png";
        "output/0/render_020.png";
        "output/0/render_021.png";
        "output/0/render_022.png";
        "output/0/render_023.png";
        "output/0/render_024.png";
        "output/0/render_025.png";
        "output/0/render_026.png";
        "output/0/render_027.png";
        "output/0/render_028.png";
        "output/0/render_029.png"]
        ++ [SaveVideo (repeat Sample.rgb_3x2 30) "output/0/render.mp4" 30])
       (Return tt).
Proof.
  split; [reflexivity|]. split; [reflexivity|].
  eapply yields_eq.
  - apply (render_stage_frames_then_video Sample.libs notebook_config 0 [0%nat]
             (repeat Sample.rgb_3x2 30) []); reflexivity.
  - vm_compute. reflexivity.
Defined.

(** ** What the loop calls, however it ends *)

Section LoopCalls.
Context {Scene Mesh : Type} (libs : Libs Scene Mesh).
Implicit Types (P : Event Scene Mesh -> Prop).

Lemma adds_only_of_yields {A : Type} P (m : M (Scene:=Scene) (Mesh:=Mesh) A) evs r :
  yields m evs r -> Forall P evs -> adds_only P m.
Proof.
  intros Hm Hevs s s' r' Hrun.
  destruct (Hm s) as (s1 & Hrun1 & Htr1).
  rewrite Hrun in Hrun1. injection Hrun1 as -> ->. by exists evs.
Qed.

Lemma adds_only_quiet {A : Type} P (m : M (Scene:=Scene) (Mesh:=Mesh) A) r :
  yields m [] r -> adds_only P m.
Proof. intros Hm. eapply adds_only_of_yields; [exact Hm|constructor]. Qed.

Lemma adds_only_bind {A B : Type} P (m : M (Scene:=Scene) (Mesh:=Mesh) A)
    (k : A -> M B) :
  adds_only P m -> (forall a, adds_only P (k a)) -> adds_only P (bind m k).
Proof.
  intros Hm Hk s s' r. unfold bind.
  destruct (m s) as [s1 [a|exn]] eqn:Hrun1; intros Hrun.
  - destruct (Hm _ _ _ Hrun1) as (evs1 & Htr1 & Hall1).
    destruct (Hk a _ _ _ Hrun) as (evs2 & Htr2 & Hall2).
    exists (evs1 ++ evs2). split.
    + by rewrite Htr2, Htr1, app_assoc.
    + by apply Forall_app.
  - injection Hrun as <- <-. by apply (Hm _ _ _ Hrun1).
Qed.

Lemma adds_only_index0 {A : Type} P (l : list A) :
  adds_only (Scene:=Scene) (Mesh:=Mesh) P (index0 l).
Proof.
  destruct l.
  - eapply adds_only_quiet, yields_index0_nil.
  - eapply adds_only_quiet, yields_index0.
Qed.

Lemma adds_only_for {A : Type} P (body : nat -> A -> M (Scene:=Scene) (Mesh:=Mesh) unit)
    (start : nat) (l : list A) :
  (forall i x, (start <= i < start + length l)%nat -> adds_only P (body i x)) ->
  adds_only P (for_enumerate body start l).
Proof.
  revert start. induction l as [|x l IH]; intros start Hbody.
  - eapply adds_only_quiet, yields_ret.
  - cbn [for_enumerate]. apply adds_only_bind.
    + apply Hbody. cbn. lia.
    + intros _. apply IH. intros i y Hi. apply Hbody. cbn. lia.
Qed.

Lemma loop_call_render_stage (cfg : Config) (n i : nat) (scene_codes : list Scene) :
  (i < n)%nat -> adds_only (loop_call cfg n) (render_stage libs cfg i scene_codes).
Proof.
  intros Hi. unfold render_stage. destruct (render cfg).
  - unfold render_branch.
    apply adds_only_bind; [eapply adds_only_quiet, yields_timer_start|intros _].
    apply adds_only_bind; [|intros render_images].
    { eapply adds_only_of_yields; [apply yields_call_render|].
      by repeat constructor. }
    apply adds_only_bind; [apply adds_only_index0|intros frames].
    apply adds_only_bind; [|intros _].
    { eapply adds_only_of_yields; [apply yields_for_emit|].
      apply Forall_map, Forall_forall. intros [ri frame] _. cbn.
      exists i, ri. split; [done|]. apply frame_path_explicit. }
    apply adds_only_bind; [apply adds_only_index0|intros frames'].
    apply adds_only_bind; [|intros _].
    { eapply adds_only_of_yields; [apply yields_emit|].
      constructor; [|constructor]. cbn. exists i.
      split; [done|]. split; [apply video_path_explicit|done]. }
    apply adds_only_bind; [eapply adds_only_quiet, yields_timer_end|intros _].
    eapply adds_only_quiet, yields_ret.
  - eapply adds_only_quiet, yields_ret.
Qed.

Lemma loop_call_loop_body (cfg : Config) (n len i : nat) (image : Image) :
  (i < n)%nat -> adds_only (loop_call cfg n) (loop_body libs cfg len i image).
Proof.
  intros Hi. unfold loop_body.
  apply adds_only_bind; [eapply adds_only_quiet, yields_print|intros _].
  apply adds_only_bind; [eapply adds_only_quiet, yields_timer_start|intros _].
  apply adds_only_bind; [|intros scene_codes].
  { eapply adds_only_of_yields; [apply yields_call_model|].
    by repeat constructor. }
  apply adds_only_bind; [eapply adds_only_quiet, yields_timer_end|intros _].
  apply adds_only_bind; [by apply loop_call_render_stage|intros _].
  apply adds_only_bind; [eapply adds_only_quiet, yields_timer_start|intros _].
  apply adds_only_bind; [|intros meshes].
  { eapply adds_only_of_yields; [apply yields_call_extract_mesh|].
    by repeat constructor. }
  apply adds_only_bind; [apply adds_only_index0|intros mesh].
  apply adds_only_bind; [|intros _].
  { eapply adds_only_of_yields; [apply yields_emit|].
    constructor; [|constructor]. cbn.
    exists i. split; [done|]. apply mesh_path_explicit. }
  apply adds_only_bind; [eapply adds_only_quiet, yields_timer_end|intros _].
  eapply adds_only_quiet, yields_ret.
Qed.

(** X17.  The loop, on any list of images and however it ends, makes
    no call that creates a directory and none of the preprocessing
    calls.  Each model call is on a single image and the configured
    device, each render call asks for 30 views as PIL images, each
    extraction is without vertex colours, and each write is of
    [render_<ri:03d>.png], of [render.mp4] at 30 frames a second or of
    [mesh.<format>], in [os.path.join(output_dir, str(i))] with [i]
    below the number of images.  The directory of an index is thus
    written to without the loop having made it.  The property is one
    of each call, so it holds as well of the calls made up to a write
    that fails. *)
Theorem loop_calls_no_makedirs (cfg : Config) (images : list Image) :
  adds_only (loop_call cfg (length images)) (loop_cell libs cfg images).
Proof.
  unfold loop_cell.
  apply adds_only_bind; [|intros _; eapply adds_only_quiet, yields_print].
  apply adds_only_for. intros i image Hi.
  apply loop_call_loop_body. lia.
Qed.

End LoopCalls.
